(** * Finance calculator and match scorer of the automotive shopping backend

    A shallow embedding of
    - [backend/utils/finance_calculator.py] (class [FinanceCalculator]),
    - [finance_calculator.py] (the scratch helpers),
    - [backend/api/finance.py] ([calculate_match_score] and the subscripts the
      endpoints apply to the calculator's results; the handlers, the queries
      they build and [get_dealership_availability]),
    - [backend/schemas/finance_schemas.py] (the request models, their
      validators and the field names of the response models),
    with the properties of the specification stated over it, and further
    properties of the code after them.  The database is not modelled: a
    handler is given the rows its query returns.

    Python floats are IEEE binary64 numbers: they are modelled by Rocq's
    primitive floats, whose [+], [-], [*] and [/] are the hardware operations
    CPython uses.  A power of floats is what the C library's [pow] returns:
    the model takes that function as a parameter, and the properties hold
    for every such function.  Python exceptions are modelled by an error
    monad. *)

From Stdlib Require Import ZArith Lia List String Ascii Bool.
From Stdlib Require Import Floats.
From Stdlib Require Uint63.
From stdpp Require Import gmap strings list fin_maps sorting.

Set Warnings "-inexact-float".
Open Scope Z_scope.

(* ===================================================================== *)
(** * Python values, exceptions and numbers                               *)
(* ===================================================================== *)

Module Py.

(** The builtin exceptions the modelled code can raise. *)
Inductive exn : Set :=
| ZeroDivisionError
| OverflowError
| ValueError
| TypeError
| KeyError
| NameError.

(** A computation either returns a value or raises. *)
Inductive result (A : Type) : Type :=
| Ok (a : A)
| Raise (e : exn).
Arguments Ok {A} a.
Arguments Raise {A} e.

Definition bind {A B} (k : A -> result B) (c : result A) : result B :=
  match c with
  | Ok a => k a
  | Raise e => Raise e
  end.

#[export] Instance result_ret : MRet result := @Ok.
#[export] Instance result_bind : MBind result := @bind.
#[export] Instance result_fmap : FMap result :=
  fun A B f c => bind (fun a => Ok (f a)) c.

Definition returns {A} (c : result A) : bool :=
  match c with Ok _ => true | Raise _ => false end.

(** The objects that appear as arguments, locals and dictionary values. *)
Inductive value : Type :=
| PyFloat (f : float)
| PyInt (n : Z)
| PyStr (s : string)
| PyList (l : list float)
| PyFunction (name : string).

(** [d[k]]: a missing key raises [KeyError]. *)
Definition getitem (d : gmap string value) (k : string) : result value :=
  match d !! k with
  | Some v => Ok v
  | None => Raise KeyError
  end.

(** ** Integers as floats *)

(** The double nearest to an integer (ties to even); [infinity] when the
    integer is beyond the range of doubles. *)
Definition float_of_Z (n : Z) : float :=
  SF2Prim (binary_normalize prec emax n 0 false).

(** [float(n)] as the arithmetic operators apply it to an [int] operand:
    [OverflowError] for an integer too large for a double. *)
Definition float_of_int (n : Z) : result float :=
  let f := float_of_Z n in
  if is_infinity f then Raise OverflowError else Ok f.

(** The integer an integral finite double stands for (the value of
    [float(n)] read back). *)
Definition Z_of_integral (f : float) : Z :=
  match Prim2SF f with
  | S754_finite s m e =>
      cond_Zopp s (if 0 <=? e then Z.pos m * 2 ^ e else Z.pos m / 2 ^ (- e))
  | _ => 0
  end.

(** ** Division *)

(** [x / y] on floats: a zero divisor raises, whatever the dividend. *)
Definition truediv (x y : float) : result float :=
  if is_zero y then Raise ZeroDivisionError else Ok (x / y)%float.

(** ** Correct rounding of a rational *)

(** The double nearest to [(-1)^s * (p / q) * 2^e], ties to even.  The
    quotient is computed with three guard bits and a sticky bit, which
    [binary_normalize] then rounds. *)
Definition SF_of_ratio (s : bool) (p q : positive) (e : Z) : spec_float :=
  let k := Z.max 0 (Z.pos (digits2_pos q) + 56 - Z.pos (digits2_pos p)) in
  let n := Z.pos p * 2 ^ k in
  let m := n / Z.pos q in
  let sticky := if n mod Z.pos q =? 0 then 0 else 1 in
  binary_normalize prec emax (cond_Zopp s (2 * m + sticky)) (e - k - 1) s.

(** ** [round(x, 2)] *)

(** [n / d] rounded to the nearest integer, ties to the even one. *)
Definition round_half_even (n d : Z) : Z :=
  let q := n / d in
  let r := n mod d in
  match 2 * r ?= d with
  | Lt => q
  | Gt => q + 1
  | Eq => if Z.even q then q else q + 1
  end.

(** [round(x, 2)] on a float.  CPython prints the exact binary value of [x]
    with two digits after the point, correctly rounded (ties to even), and
    reads the decimal string back as the nearest double; infinities and nans
    round to themselves, and the sign of a zero result is that of [x]. *)
Definition round2 (x : float) : float :=
  match Prim2SF x with
  | S754_finite s m e =>
      let k := if 0 <=? e then Z.pos m * 2 ^ e * 100
               else round_half_even (Z.pos m * 100) (2 ^ (- e)) in
      match k with
      | Z.pos p => SF2Prim (SF_of_ratio s p 100 0)
      | _ => if s then neg_zero else zero
      end
  | _ => x
  end.

(** ** [x ** n] for a float [x] and an int [n] *)

(** CPython computes a power of floats with the C library's [pow].  What
    that function returns is not fixed by the language: the libraries in use
    are accurate to about one unit in the last place and differ from one
    another, so the model takes the function as a parameter.  CPython calls
    it with a finite positive base other than 1 and a finite non-zero
    exponent, and reads an infinite result as an overflow. *)
Class Libm := {
  libm_pow : float -> float -> float
}.

(** [float.__pow__] with an [int] exponent, case by case as CPython's
    [float_pow] sorts them out before it calls the C library. *)
Definition float_pow `{Libm} (iv : float) (n : Z) : result float :=
  iw ← float_of_int n;
  let w := Z_of_integral iw in
  if is_zero iw then Ok 1%float
  else if is_nan iv then Ok iv
  else if is_infinity iv then
    if 0 <? w
    then Ok (if Z.odd w then iv else abs iv)
    else Ok (if Z.odd w && get_sign iv then neg_zero else zero)
  else if is_zero iv then
    if w <? 0 then Raise ZeroDivisionError
    else Ok (if Z.odd w then iv else zero)
  else
    let negate_result := get_sign iv && Z.odd w in
    if (abs iv =? 1)%float
    then Ok (if negate_result then (-1)%float else 1%float)
    else
      let ix := libm_pow (abs iv) iw in
      if is_infinity ix then Raise OverflowError
      else Ok (if negate_result then (- ix)%float else ix).

(** A reference [pow]: the correctly rounded power of a base m × 2^e with
    an integral exponent [w].  A C library agrees with it wherever the exact
    power is a double, and is within a unit in the last place of it
    elsewhere.  It serves where a property is evaluated on sample inputs. *)
Definition correctly_rounded_power (m : positive) (e : Z) (w : Z)
    : spec_float :=
  match w with
  | Z.pos n => binary_normalize prec emax (Z.pos (m ^ n)) (e * w) false
  | Z.neg n => SF_of_ratio false 1 (m ^ n) (e * w)
  | Z0 => binary_normalize prec emax 1 0 false
  end.

Definition correctly_rounded_pow (x y : float) : float :=
  match Prim2SF x with
  | S754_finite _ m e =>
      SF2Prim (correctly_rounded_power m e (Z_of_integral y))
  | _ => x
  end.

(** The reference library.  It is no instance outside the sections that
    evaluate a property on sample inputs, where the powers are doubles, or
    none is computed, or their value does not bear on the result; every
    property is stated for an arbitrary library. *)
Definition correctly_rounded : Libm :=
  {| libm_pow := correctly_rounded_pow |}.

(** ** Strings *)

(** Strings are byte strings.  They stand for Python strings of ASCII
    characters, on which [str.lower], [in] and [int] are modelled below;
    what Python does with other characters is not modelled. *)
Definition is_ascii_char (c : ascii) : bool := (N_of_ascii c <? 128)%N.

Fixpoint is_ascii (s : string) : bool :=
  match s with
  | EmptyString => true
  | String c s' => is_ascii_char c && is_ascii s'
  end.

(** [str.lower] on ASCII text: [A]..[Z] map to [a]..[z]. *)
Definition lower_ascii (c : ascii) : ascii :=
  let n := N_of_ascii c in
  if ((65 <=? n) && (n <=? 90))%N then ascii_of_N (n + 32) else c.

Fixpoint lower (s : string) : string :=
  match s with
  | EmptyString => EmptyString
  | String c s' => String (lower_ascii c) (lower s')
  end.

(** [a in b] on strings: [a] occurs in [b] as a contiguous substring. *)
Fixpoint contains (a b : string) : bool :=
  String.prefix a b ||
  match b with
  | EmptyString => false
  | String _ b' => contains a b'
  end.

(** The characters [int] skips around a numeral in an ASCII string: the
    blank and the controls 9 to 13. *)
Definition is_space (c : ascii) : bool :=
  let n := N_of_ascii c in
  ((n =? 32) || ((9 <=? n) && (n <=? 13)))%N.

Definition digit_of (c : ascii) : option Z :=
  let n := N_of_ascii c in
  if ((48 <=? n) && (n <=? 57))%N then Some (Z.of_N n - 48) else None.

Fixpoint lstrip (s : string) : string :=
  match s with
  | String c s' => if is_space c then lstrip s' else s
  | EmptyString => EmptyString
  end.

Definition all_space (s : string) : bool :=
  match lstrip s with EmptyString => true | _ => false end.

(** The digits of a numeral after its first digit, with the value [acc] read
    so far: a single underscore may separate two digits, and only blanks may
    follow the last digit. *)
Fixpoint int_digits (acc : Z) (s : string) : option Z :=
  match s with
  | EmptyString => Some acc
  | String c s' =>
      match digit_of c with
      | Some d => int_digits (10 * acc + d) s'
      | None =>
          if Ascii.eqb c "_" then
            match s' with
            | String c' s'' =>
                match digit_of c' with
                | Some d => int_digits (10 * acc + d) s''
                | None => None
                end
            | EmptyString => None
            end
          else if all_space s then Some acc else None
      end
  end.

Definition int_unsigned (s : string) : option Z :=
  match s with
  | String c s' =>
      match digit_of c with
      | Some d => int_digits d s'
      | None => None
      end
  | EmptyString => None
  end.

(** The number of digits in a string. *)
Fixpoint digit_count (s : string) : Z :=
  match s with
  | EmptyString => 0
  | String c s' =>
      match digit_of c with
      | Some _ => 1 + digit_count s'
      | None => digit_count s'
      end
  end.

(** [sys.get_int_max_str_digits()], as CPython 3.11 sets it. *)
Definition int_max_str_digits : Z := 4300.

(** [int(s)] on a string, base ten: blanks, an optional sign, digits; a
    malformed numeral raises [ValueError], and so does a numeral of more
    digits than [int_max_str_digits]. *)
Definition int_of_str (s : string) : result Z :=
  let parsed :=
    match lstrip s with
    | String "-" s' => Z.opp <$> int_unsigned s'
    | String "+" s' => int_unsigned s'
    | s' => int_unsigned s'
    end in
  match parsed with
  | Some n =>
      if int_max_str_digits <? digit_count s then Raise ValueError else Ok n
  | None => Raise ValueError
  end.

End Py.

Import Py.

Abbreviation dict := (gmap string value).

(* ===================================================================== *)
(** * backend/utils/finance_calculator.py                                 *)
(* ===================================================================== *)

Module FinanceCalculator.

Definition default_loan_term : Z := 60.
Definition default_lease_term : Z := 36.

Definition calculate_loan_payment `{Libm}
    (vehicle_price down_payment interest_rate : float)
    (loan_term_months : Z) : result dict :=
  let loan_amount := (vehicle_price - down_payment)%float in
  let monthly_rate := (interest_rate / 12 / 100)%float in
  monthly_payment ←
    (if (monthly_rate =? 0)%float then
       n ← float_of_int loan_term_months;
       truediv loan_amount n
     else
       p1 ← float_pow (1 + monthly_rate)%float loan_term_months;
       p2 ← float_pow (1 + monthly_rate)%float loan_term_months;
       truediv (loan_amount * (monthly_rate * p1))%float (p2 - 1)%float);
  n ← float_of_int loan_term_months;
  let total_cost := (monthly_payment * n)%float in
  let total_interest := (total_cost - loan_amount)%float in
  Ok (list_to_map
        [ ("monthly_payment", PyFloat (round2 monthly_payment));
          ("total_cost", PyFloat (round2 total_cost));
          ("total_interest", PyFloat (round2 total_interest));
          ("loan_term_months", PyInt loan_term_months);
          ("loan_amount", PyFloat (round2 loan_amount)) ]).

Definition calculate_lease_payment
    (vehicle_price residual_value money_factor down_payment : float)
    (lease_term_months : Z) : result dict :=
  let capitalized_cost := (vehicle_price - down_payment)%float in
  n ← float_of_int lease_term_months;
  monthly_depreciation ← truediv (capitalized_cost - residual_value)%float n;
  let monthly_finance_charge :=
    ((capitalized_cost + residual_value) * money_factor)%float in
  let monthly_payment := (monthly_depreciation + monthly_finance_charge)%float in
  n ← float_of_int lease_term_months;
  let total_cost := (monthly_payment * n + down_payment)%float in
  Ok (list_to_map
        [ ("monthly_payment", PyFloat (round2 monthly_payment));
          ("total_lease_cost", PyFloat (round2 total_cost));
          ("capitalized_cost", PyFloat (round2 capitalized_cost));
          ("monthly_depreciation", PyFloat (round2 monthly_depreciation));
          ("monthly_finance_charge", PyFloat (round2 monthly_finance_charge));
          ("lease_term_months", PyInt lease_term_months) ]).

Definition calculate_affordability `{Libm}
    (monthly_income monthly_expenses down_payment interest_rate : float)
    (loan_term_months : Z) : result dict :=
  let monthly_available := (monthly_income * 0.2 - monthly_expenses)%float in
  let monthly_rate := (interest_rate / 12 / 100)%float in
  max_loan_amount ←
    (if (monthly_rate =? 0)%float then
       n ← float_of_int loan_term_months;
       Ok (monthly_available * n)%float
     else
       p ← float_pow (1 + monthly_rate)%float (- loan_term_months);
       q ← truediv (1 - p)%float monthly_rate;
       Ok (monthly_available * q)%float);
  let max_vehicle_price := (max_loan_amount + down_payment)%float in
  Ok (list_to_map
        [ ("max_vehicle_price", PyFloat (round2 max_vehicle_price));
          ("monthly_payment_capacity", PyFloat (round2 monthly_available));
          ("max_loan_amount", PyFloat (round2 max_loan_amount)) ]).

(** The body of [for year in range(1, years + 1)], run over the remaining
    years with the loop's variables as accumulators. *)
Fixpoint depreciation_loop `{Libm}
    (initial_value annual_depreciation_rate : float)
    (years : list Z) (current_value : float)
    (values depreciation_amounts cumulative_depreciation : list float)
    : result (list float * list float * list float) :=
  match years with
  | [] => Ok (values, depreciation_amounts, cumulative_depreciation)
  | year :: rest =>
      p ← float_pow (1 - annual_depreciation_rate)%float year;
      let new_value := (initial_value * p)%float in
      let depreciation_amount := (current_value - new_value)%float in
      depreciation_loop initial_value annual_depreciation_rate rest new_value
        (values ++ [round2 new_value])
        (depreciation_amounts ++ [round2 depreciation_amount])
        (cumulative_depreciation ++ [round2 (initial_value - new_value)%float])
  end.

Definition calculate_depreciation `{Libm}
    (initial_value : float) (years : Z) (annual_depreciation_rate : float)
    : result dict :=
  '(values, depreciation_amounts, cumulative_depreciation) ←
    depreciation_loop initial_value annual_depreciation_rate
      (seqZ 1 years) initial_value [] [] [];
  Ok (list_to_map
        [ ("yearly_values", PyList values);
          ("yearly_depreciation", PyList depreciation_amounts);
          ("cumulative_depreciation", PyList cumulative_depreciation) ]).

(** [compare_lease_vs_loan]: both calculators are called with their default
    terms (60 and 36 months, the defaults of their signatures); the terms
    reported are the instance's [default_loan_term] and
    [default_lease_term]. *)
Definition compare_lease_vs_loan `{Libm}
    (vehicle_price down_payment loan_interest_rate lease_money_factor
       residual_value : float) : result (gmap string dict) :=
  loan_calc ←
    calculate_loan_payment vehicle_price down_payment loan_interest_rate 60;
  lease_calc ←
    calculate_lease_payment vehicle_price residual_value lease_money_factor
      down_payment 36;
  loan_monthly ← getitem loan_calc "monthly_payment";
  loan_total ← getitem loan_calc "total_cost";
  lease_monthly ← getitem lease_calc "monthly_payment";
  lease_total ← getitem lease_calc "total_lease_cost";
  Ok (list_to_map
        [ ("loan",
           list_to_map
             [ ("monthly_payment", loan_monthly);
               ("total_cost", loan_total);
               ("ownership", PyStr "Yes");
               ("term_months", PyInt default_loan_term) ]);
          ("lease",
           list_to_map
             [ ("monthly_payment", lease_monthly);
               ("total_cost", lease_total);
               ("ownership", PyStr "No");
               ("term_months", PyInt default_lease_term) ]) ]).

End FinanceCalculator.

(* ===================================================================== *)
(** * finance_calculator.py (scratch helpers)                             *)
(* ===================================================================== *)

Module Scratch.

(** The names the module binds at top level. *)
Definition module_globals : dict :=
  list_to_map
    [ ("find_monthly_payment", PyFunction "find_monthly_payment");
      ("find_lease_payment", PyFunction "find_lease_payment");
      ("max_affordable_vehicle", PyFunction "max_affordable_vehicle");
      ("future_value", PyFunction "future_value") ].

(** The builtins the module refers to (no builtin of Python is named [P]). *)
Definition builtins : dict :=
  list_to_map [ ("round", PyFunction "round") ].

(** Reading a name that the function body never assigns: the module's
    globals, then the builtins, then [NameError]. *)
Definition load_global (name : string) : result value :=
  match module_globals !! name with
  | Some v => Ok v
  | None =>
      match builtins !! name with
      | Some v => Ok v
      | None => Raise NameError
      end
  end.

(** A number as a float operand. *)
Definition as_float (v : value) : result float :=
  match v with
  | PyFloat f => Ok f
  | PyInt n => float_of_int n
  | _ => Raise TypeError
  end.

(** The parameters and the assigned names [p], [r], [n] are locals; [P] is
    assigned nowhere, so both branches read it as a global. *)
Definition find_monthly_payment `{Libm}
    (model_car : string) (amount_desired : float)
    (n_month_estimated : Z) (annual_rate : float) : result float :=
  let p := amount_desired in
  let r := (annual_rate / 100 / 12)%float in
  let n := n_month_estimated in
  monthly_payment ←
    (if (r =? 0)%float then
       P ← load_global "P";
       P ← as_float P;
       n ← float_of_int n;
       truediv P n
     else
       P ← load_global "P";
       P ← as_float P;
       p1 ← float_pow (1 + r)%float n;
       p2 ← float_pow (1 + r)%float n;
       truediv (P * (r * p1))%float (p2 - 1)%float);
  Ok (round2 monthly_payment).

Definition find_lease_payment
    (vehicle_price down_payment residual_value : float) (term_months : Z)
    (apr : float) : result float :=
  let capitalized_cost := (vehicle_price - down_payment)%float in
  let money_factor := (apr / 2400)%float in
  n ← float_of_int term_months;
  d ← truediv (capitalized_cost - residual_value)%float n;
  let monthly_payment :=
    (d + (capitalized_cost + residual_value) * money_factor)%float in
  Ok (round2 monthly_payment).

(** No zero-rate branch here: the annuity factor divides by [r]. *)
Definition max_affordable_vehicle `{Libm}
    (monthly_income monthly_expenses down_payment annual_rate : float)
    (n_months : Z) : result dict :=
  let r := (annual_rate / 100 / 12)%float in
  let max_monthly_payment := (monthly_income * 0.2 - monthly_expenses)%float in
  p ← float_pow (1 + r)%float (- n_months);
  q ← truediv (1 - p)%float r;
  let max_loan_amount := (max_monthly_payment * q)%float in
  let max_vehicle_price := (max_loan_amount + down_payment)%float in
  Ok (list_to_map
        [ ("max_monthly_payment", PyFloat (round2 max_monthly_payment));
          ("max_vehicle_price", PyFloat (round2 max_vehicle_price)) ]).

Definition future_value `{Libm}
    (initial_value depreciation_rate : float) (years : Z)
    : result float :=
  p ← float_pow (1 - depreciation_rate)%float years;
  let fv := (initial_value * p)%float in
  Ok (round2 fv).

End Scratch.

(* ===================================================================== *)
(** * backend/schemas/finance_schemas.py and backend/api/finance.py        *)
(* ===================================================================== *)

Module Api.

(** The attributes of a vehicle row and of the quiz preferences that the
    scorer reads. *)
Record Engine := {
  fuelType : string
}.

Record Vehicle := {
  type : string;
  features : list string;
  seatingCapacity : option string;
  engine : Engine
}.

Record Preferences := {
  vehicleTypes : list string;
  mustHaveFeatures : list string;
  seatingMinimum : Z;
  fuelPreference : string
}.

(** Truth value of a string: only the empty string is false (and so is
    [None], the absent capacity). *)
Definition truthy (s : string) : bool :=
  match s with
  | EmptyString => false
  | String _ _ => true
  end.

(** The score is a Python float that only ever holds an integer far below
    2^53, on which float addition and subtraction are exact: it is modelled
    by that integer. *)
Definition calculate_match_score (vehicle : Vehicle)
    (preferences : Preferences) : result Z :=
  let score := 100 in
  if negb (bool_decide (type vehicle ∈ vehicleTypes preferences)) then Ok 0
  else
    let vehicle_features : gset string := list_to_set (features vehicle) in
    let must_have_features : gset string :=
      list_to_set (mustHaveFeatures preferences) in
    let missing_features := must_have_features ∖ vehicle_features in
    let score := score - Z.of_nat (size missing_features) * 10 in
    score ←
      match seatingCapacity vehicle with
      | Some s =>
          if truthy s then
            capacity ← int_of_str s;
            Ok (if capacity <? seatingMinimum preferences
                then score - 30 else score)
          else Ok score
      | None => Ok score
      end;
    let score :=
      if contains (lower (fuelPreference preferences))
                  (lower (fuelType (engine vehicle)))
      then score + 10 else score - 10 in
    Ok (Z.max 0 (Z.min 100 score)).

(** [calculator.calculate_loan_payment(...)["monthlyPayment"]], as the
    affordability and quiz endpoints evaluate it for a vehicle. *)
Definition endpoint_monthly_payment `{Libm}
    (price down_payment interest_rate : float) (term : Z) : result value :=
  d ← FinanceCalculator.calculate_loan_payment
         price down_payment interest_rate term;
  getitem d "monthlyPayment".

End Api.

Import Api.

(* ===================================================================== *)
(** * backend/api/finance.py: the endpoints                               *)
(* ===================================================================== *)

Module Service.

(** ** Request and response models (backend/schemas/finance_schemas.py) *)

Module LoanCalculatorRequest.
Record t := {
  vehiclePrice : float;
  downPayment : float;
  interestRate : float;
  loanTermMonths : Z
}.

(** [values] holds the fields validated before this one, those that passed. *)
Definition validate_down_payment (v : float) (values : gmap string float)
    : result float :=
  match values !! "vehiclePrice" with
  | Some vehicle_price =>
      if (vehicle_price <=? v)%float then Raise ValueError else Ok v
  | None => Ok v
  end.
End LoanCalculatorRequest.

Module LeaseCalculatorRequest.
Record t := {
  vehiclePrice : float;
  residualValue : float;
  moneyFactor : float;
  downPayment : float;
  leaseTermMonths : Z
}.

Definition validate_residual_value (v : float) (values : gmap string float)
    : result float :=
  match values !! "vehiclePrice" with
  | Some vehicle_price =>
      if (vehicle_price <=? v)%float then Raise ValueError else Ok v
  | None => Ok v
  end.
End LeaseCalculatorRequest.

Module AffordabilityRequest.
Record t := {
  monthlyIncome : float;
  monthlyExpenses : float;
  downPayment : float;
  interestRate : float;
  loanTermMonths : Z
}.

Definition validate_expenses (v : float) (values : gmap string float)
    : result float :=
  match values !! "monthlyIncome" with
  | Some monthly_income =>
      if (monthly_income <=? v)%float then Raise ValueError else Ok v
  | None => Ok v
  end.
End AffordabilityRequest.

Module DepreciationRequest.
Record t := {
  initialValue : float;
  years : Z;
  annualDepreciationRate : float
}.
End DepreciationRequest.

Module Budget.
Record t := {
  monthly : float;
  downPayment : float
}.
End Budget.

Module FinancingPreference.
Inductive preferred_type := loan | lease.
Record t := {
  preferredType : preferred_type;
  termLength : Z
}.
End FinancingPreference.

Module QuizRequest.
Record t := {
  budget : Budget.t;
  preferences : Preferences;
  financing : FinancingPreference.t
}.
End QuizRequest.

(** The field names of the response models the endpoints declare. *)
Definition LoanCalculatorResponse : list string :=
  [ "monthlyPayment"; "totalCost"; "totalInterest"; "loanTermMonths";
    "loanAmount" ].

Definition LeaseCalculatorResponse : list string :=
  [ "monthlyPayment"; "totalLeaseCost"; "capitalizedCost";
    "monthlyDepreciation"; "monthlyFinanceCharge"; "leaseTermMonths" ].

Definition AffordabilityResponse : list string :=
  [ "maxVehiclePrice"; "monthlyPaymentCapacity"; "maxLoanAmount";
    "suggestedVehicles" ].

Definition DepreciationResponse : list string :=
  [ "yearlyValues"; "yearlyDepreciation"; "cumulativeDepreciation" ].

(** ** What a handler does with an exception *)

(** A handler returns, answers with an HTTP error of its own, or lets the
    exception propagate to the framework. *)
Inductive outcome (A : Type) : Type :=
| Returns (a : A)
| HTTPException (status_code : Z)
| Propagates (e : exn).
Arguments Returns {A} a.
Arguments HTTPException {A} status_code.
Arguments Propagates {A} e.

(** [try: ... except ValueError as e: raise HTTPException(status_code=400,
    detail=str(e))]; the quiz handler's [except sqlite3.Error] clause
    concerns the database driver only. *)
Definition except_ValueError {A} (c : result A) : outcome A :=
  match c with
  | Ok a => Returns a
  | Raise ValueError => HTTPException 400
  | Raise e => Propagates e
  end.

(** ** The calculator endpoints *)

Definition calculate_loan `{Libm} (request : LoanCalculatorRequest.t)
    : outcome dict :=
  except_ValueError
    (FinanceCalculator.calculate_loan_payment
       (LoanCalculatorRequest.vehiclePrice request)
       (LoanCalculatorRequest.downPayment request)
       (LoanCalculatorRequest.interestRate request)
       (LoanCalculatorRequest.loanTermMonths request)).

Definition calculate_lease (request : LeaseCalculatorRequest.t) : outcome dict :=
  except_ValueError
    (FinanceCalculator.calculate_lease_payment
       (LeaseCalculatorRequest.vehiclePrice request)
       (LeaseCalculatorRequest.residualValue request)
       (LeaseCalculatorRequest.moneyFactor request)
       (LeaseCalculatorRequest.downPayment request)
       (LeaseCalculatorRequest.leaseTermMonths request)).

Definition calculate_depreciation `{Libm} (request : DepreciationRequest.t)
    : outcome dict :=
  except_ValueError
    (FinanceCalculator.calculate_depreciation
       (DepreciationRequest.initialValue request)
       (DepreciationRequest.years request)
       (DepreciationRequest.annualDepreciationRate request)).

(** ** The inventory query *)

(** Truth value of an optional float and of an optional int: [None] and
    zero are false. *)
Definition truthy_float (o : option float) : bool :=
  match o with
  | Some f => negb (is_zero f)
  | None => false
  end.

Definition truthy_int (o : option Z) : bool :=
  match o with
  | Some n => negb (n =? 0)
  | None => false
  end.

Definition truthy_str (o : option string) : bool :=
  match o with
  | Some s => truthy s
  | None => false
  end.

(** One [if x: query += clause; params.append(x)] step. *)
Definition add_filter (test : bool) (clause : string) (param : option value)
    (qp : string * list value) : string * list value :=
  if test
  then (fst qp +:+ clause, snd qp ++ option_list param)
  else qp.

(** The query and the parameters [list_vehicles] hands to [db.execute]. *)
Definition list_vehicles_query (type : option string)
    (min_price max_price : option float) (year : option Z)
    : string * list value :=
  let qp := ("SELECT * FROM vehicles WHERE 1=1", []) in
  let qp := add_filter (truthy_str type) " AND type = ?" (PyStr <$> type) qp in
  let qp := add_filter (truthy_float min_price)
              " AND CAST(price_baseMSRP AS FLOAT) >= ?"
              (PyFloat <$> min_price) qp in
  let qp := add_filter (truthy_float max_price)
              " AND CAST(price_baseMSRP AS FLOAT) <= ?"
              (PyFloat <$> max_price) qp in
  let qp := add_filter (truthy_int year) " AND year = ?" (PyInt <$> year) qp in
  qp.

(** ** The quiz query *)

Definition nl : string := String (ascii_of_N 10) EmptyString.

(** [c * n] for a one-character string. *)
Fixpoint str_repeat (c : ascii) (n : nat) : string :=
  match n with
  | O => EmptyString
  | S n' => String c (str_repeat c n')
  end.

(** [sep.join(s)] on a string [s]: its characters, separated. *)
Definition join (sep s : string) : string :=
  String.concat sep ((fun c => String c EmptyString) <$> list_ascii_of_string s).

(** The text of the template before and after its [{}]. *)
Definition quiz_query_head : string :=
  nl +:+ "        SELECT * FROM vehicles " +:+ nl
     +:+ "        WHERE type IN (".

Definition quiz_query_tail : string :=
  ")" +:+ nl +:+ "        AND CAST(seatingCapacity AS INTEGER) >= ?" +:+ nl
      +:+ "        ".

(** The query and the parameters [process_quiz] hands to [db.execute]. *)
Definition quiz_query `{Libm} (request : QuizRequest.t)
    : result (string * list value) :=
  let max_monthly := Budget.monthly (QuizRequest.budget request) in
  let down_payment := Budget.downPayment (QuizRequest.budget request) in
  let vehicle_types := vehicleTypes (QuizRequest.preferences request) in
  let query :=
    quiz_query_head +:+ join "," (str_repeat "?" (length vehicle_types))
                    +:+ quiz_query_tail in
  let params :=
    (PyStr <$> vehicle_types)
    ++ [PyInt (seatingMinimum (QuizRequest.preferences request))] in
  match FinancingPreference.preferredType (QuizRequest.financing request) with
  | FinancingPreference.loan =>
      d ← FinanceCalculator.calculate_affordability
             (max_monthly * 5)%float 0%float down_payment 5%float
             (FinancingPreference.termLength (QuizRequest.financing request));
      affordable_price ← getitem d "max_vehicle_price";
      Ok (query +:+ " AND CAST(price_baseMSRP AS FLOAT) <= ?",
          params ++ [affordable_price])
  | FinancingPreference.lease => Ok (query, params)
  end.

(** ** Dealerships *)

(** The values of a dealership dictionary: strings, and the list of slots
    [get_dealership_availability] adds. *)
Inductive dvalue : Type :=
| DStr (s : string)
| DSlots (slots : list (gmap string string)).

(** A row of the vehicles table: the attributes the scorer reads, the price
    column and the dealerships. *)
Record Row := {
  attributes : Vehicle;
  price_baseMSRP : value;
  dealerships : list (gmap string dvalue)
}.

Module Recommendation.
Record t := {
  vehicle : Row;
  matchScore : Z;
  monthlyPayment : option value;
  availableDealerships : list (gmap string dvalue)
}.
End Recommendation.

Module Suggestion.
Record t := {
  vehicle : Row;
  monthlyPayment : value;
  affordabilityGap : float
}.
End Suggestion.

Section Externals.

Context `{Libm}.

(** Python's [float] on a string.  Its parser is not modelled: the
    properties hold whatever it returns or raises. *)
Variable float_of_str : string -> result float.

(** [datetime] values, [d + timedelta(days=i)] and [d.date().isoformat()]. *)
Variable datetime : Type.
Variable add_days : datetime -> Z -> datetime.
Variable isoformat : datetime -> string.

(** [float(v)]. *)
Definition py_float (v : value) : result float :=
  match v with
  | PyFloat f => Ok f
  | PyInt n => float_of_int n
  | PyStr s => float_of_str s
  | _ => Raise TypeError
  end.

(** The two slots of a day. *)
Definition day_slots (date : string) : list (gmap string string) :=
  [ list_to_map
      [ ("date", date); ("time", "10:00"); ("type", "test-drive") ];
    list_to_map
      [ ("date", date); ("time", "14:00"); ("type", "consultation") ] ].

(** [now] is the reading of [datetime.now()] the call takes. *)
Definition get_dealership_availability (now : datetime)
    (dealerships : list (gmap string dvalue)) : list (gmap string dvalue) :=
  let start_date := add_days now 1 in
  (fun dealership =>
     let slots :=
       seqZ 0 5 ≫= (fun i => day_slots (isoformat (add_days start_date i))) in
     <["availableSlots" := DSlots slots]> dealership) <$> dealerships.

(** ** The affordability endpoint *)

(** One element of the [suggestedVehicles] comprehension. *)
Definition suggest (request : AffordabilityRequest.t) (max_price : float)
    (vehicle : Row) : result Suggestion.t :=
  price ← py_float (price_baseMSRP vehicle);
  d ← FinanceCalculator.calculate_loan_payment price
         (AffordabilityRequest.downPayment request)
         (AffordabilityRequest.interestRate request)
         (AffordabilityRequest.loanTermMonths request);
  monthly_payment ← getitem d "monthlyPayment";
  price ← py_float (price_baseMSRP vehicle);
  Ok {| Suggestion.vehicle := vehicle;
        Suggestion.monthlyPayment := monthly_payment;
        Suggestion.affordabilityGap := (max_price - price)%float |}.

(** [suggested_vehicles] is what the database returns for the budget; the
    handler returns the calculator's dictionary with the suggestions stored
    under [suggestedVehicles]. *)
Definition calculate_affordability (request : AffordabilityRequest.t)
    (suggested_vehicles : list Row) : outcome (dict * list Suggestion.t) :=
  except_ValueError
    (result ← FinanceCalculator.calculate_affordability
                 (AffordabilityRequest.monthlyIncome request)
                 (AffordabilityRequest.monthlyExpenses request)
                 (AffordabilityRequest.downPayment request)
                 (AffordabilityRequest.interestRate request)
                 (AffordabilityRequest.loanTermMonths request);
     max_price ← getitem result "max_vehicle_price";
     max_price ← py_float max_price;
     suggestions ← mapM (suggest request max_price) suggested_vehicles;
     Ok (result, suggestions)).

(** ** The quiz *)

(** [recommendations.sort(key=lambda x: x["matchScore"], reverse=True)]:
    a stable sort, highest score first.  [insert_by_score r l] puts [r],
    which stood before every element of [l], in front of the first element
    that does not beat it. *)
Fixpoint insert_by_score (r : Recommendation.t) (l : list Recommendation.t)
    : list Recommendation.t :=
  match l with
  | [] => [r]
  | r' :: l' =>
      if Recommendation.matchScore r' <=? Recommendation.matchScore r
      then r :: l
      else r' :: insert_by_score r l'
  end.

Definition sort_by_score (l : list Recommendation.t) : list Recommendation.t :=
  foldr insert_by_score [] l.

(** The loop over the rows the database returned; [clock i] is the reading
    of [datetime.now()] taken while row [i] is processed. *)
Fixpoint quiz_loop (request : QuizRequest.t) (clock : nat -> datetime)
    (i : nat) (vehicles : list Row) (recommendations : list Recommendation.t)
    : result (list Recommendation.t) :=
  match vehicles with
  | [] => Ok recommendations
  | vehicle :: rest =>
      score ← calculate_match_score (attributes vehicle)
                 (QuizRequest.preferences request);
      if 50 <=? score then
        monthly_payment ←
          match FinancingPreference.preferredType
                  (QuizRequest.financing request) with
          | FinancingPreference.loan =>
              price ← py_float (price_baseMSRP vehicle);
              d ← FinanceCalculator.calculate_loan_payment price
                     (Budget.downPayment (QuizRequest.budget request))
                     5%float
                     (FinancingPreference.termLength
                        (QuizRequest.financing request));
              Some <$> getitem d "monthlyPayment"
          | FinancingPreference.lease => Ok None
          end;
        let available :=
          get_dealership_availability (clock i) (dealerships vehicle) in
        quiz_loop request clock (S i) rest
          (recommendations
             ++ [ {| Recommendation.vehicle := vehicle;
                     Recommendation.matchScore := score;
                     Recommendation.monthlyPayment := monthly_payment;
                     Recommendation.availableDealerships := available |} ])
      else quiz_loop request clock (S i) rest recommendations
  end.

(** [vehicles] is what the database returns for the quiz query. *)
Definition process_quiz (request : QuizRequest.t) (clock : nat -> datetime)
    (vehicles : list Row) : outcome (list Recommendation.t) :=
  except_ValueError
    (_ ← quiz_query request;
     recommendations ← quiz_loop request clock 0 vehicles [];
     Ok (take 5 (sort_by_score recommendations))).

End Externals.

End Service.

(* ===================================================================== *)
(** * Vocabulary of the properties                                        *)
(* ===================================================================== *)

(** Zeros and finite numbers, as opposed to infinities and nans. *)
Definition SF_is_finite (x : spec_float) : bool :=
  match x with
  | S754_zero _ | S754_finite _ _ _ => true
  | _ => false
  end.

(** Not a negative finite number. *)
Definition SF_nonneg (x : spec_float) : bool :=
  match x with
  | S754_finite true _ _ => false
  | _ => true
  end.

(** A term converts to a non-zero finite double that reads back as the
    same integer. *)
Definition term_ok (n : Z) : bool :=
  match float_of_int n with
  | Ok f => negb (is_zero f) && (Z_of_integral f =? n)
  | Raise _ => false
  end.

(** A finite number above zero. *)
Definition positive_finite (x : float) : bool :=
  match Prim2SF x with
  | S754_finite false _ _ => true
  | _ => false
  end.

(** The binary order of magnitude of a finite non-zero number:
    2^(binade − 1) ≤ |x| < 2^binade.  (0 stands in for the other floats.) *)
Definition binade (x : float) : Z :=
  match Prim2SF x with
  | S754_finite _ m e => Z.pos (digits2_pos m) + e
  | _ => 0
  end.

(** What the properties that promise a return assume of the C library: its
    [pow] does not overflow where the exact power is far below the largest
    double, 2^1024.  For a base x > 0 and an integral exponent w of at most
    1000 by magnitude that is: for w > 0 when binade × w ≤ 1000, where the
    power is below 2^1000; and for w < 0 when x is at least 1, where the
    power is at most 1. *)
Definition no_spurious_overflow `{Libm} : Prop :=
  forall (x : float) (w : Z),
    positive_finite x = true ->
    (0 < w <= 1000 /\ binade x * w <= 1000)
    \/ (-1000 <= w < 0 /\ 1 <= binade x) ->
    is_infinity (libm_pow x (float_of_Z w)) = false.

(** The dictionary the loan calculator builds from its unrounded results. *)
Definition loan_result (monthly_payment loan_amount n : float) (term : Z) : dict :=
  list_to_map
    [ ("monthly_payment", PyFloat (round2 monthly_payment));
      ("total_cost", PyFloat (round2 (monthly_payment * n)));
      ("total_interest", PyFloat (round2 (monthly_payment * n - loan_amount)));
      ("loan_term_months", PyInt term);
      ("loan_amount", PyFloat (round2 loan_amount)) ].

(** The dictionary the lease calculator builds from its unrounded results. *)
Definition lease_result
    (capitalized_cost monthly_depreciation monthly_finance_charge n
       down_payment : float) (term : Z) : dict :=
  let monthly_payment := (monthly_depreciation + monthly_finance_charge)%float in
  list_to_map
    [ ("monthly_payment", PyFloat (round2 monthly_payment));
      ("total_lease_cost", PyFloat (round2 (monthly_payment * n + down_payment)));
      ("capitalized_cost", PyFloat (round2 capitalized_cost));
      ("monthly_depreciation", PyFloat (round2 monthly_depreciation));
      ("monthly_finance_charge", PyFloat (round2 monthly_finance_charge));
      ("lease_term_months", PyInt term) ].

(** The dictionary the affordability calculator builds. *)
Definition affordability_result
    (monthly_available max_loan_amount down_payment : float) : dict :=
  list_to_map
    [ ("max_vehicle_price", PyFloat (round2 (max_loan_amount + down_payment)));
      ("monthly_payment_capacity", PyFloat (round2 monthly_available));
      ("max_loan_amount", PyFloat (round2 max_loan_amount)) ].

Section DepreciationSeries.

Variable initial_value : float.

(** [pw y] stands for the power [(1 - rate) ** y] the loop computes. *)
Variable pw : Z -> float.

(** The unrounded value after [y] years; the value before the first year is
    the initial value itself. *)
Definition year_value (y : Z) : float :=
  if y =? 0 then initial_value else (initial_value * pw y)%float.

Definition series_values (years : list Z) : list float :=
  (fun y => round2 (year_value y)) <$> years.

Definition series_depreciation (years : list Z) : list float :=
  (fun y => round2 (year_value (y - 1) - year_value y)%float) <$> years.

Definition series_cumulative (years : list Z) : list float :=
  (fun y => round2 (initial_value - year_value y)%float) <$> years.

(** The dictionary the depreciation calculator builds. *)
Definition depreciation_result (years : Z) : dict :=
  list_to_map
    [ ("yearly_values", PyList (series_values (seqZ 1 years)));
      ("yearly_depreciation", PyList (series_depreciation (seqZ 1 years)));
      ("cumulative_depreciation", PyList (series_cumulative (seqZ 1 years))) ].

End DepreciationSeries.

(** The powers the depreciation loop computes for a rate, as a function of
    the year (0.0 stands in where the power raises). *)
Definition powers_of `{Libm} (annual_depreciation_rate : float) (y : Z)
    : float :=
  match float_pow (1 - annual_depreciation_rate)%float y with
  | Ok p => p
  | Raise _ => 0%float
  end.

(** The final clamp [max(0, min(100, score))]. *)
Definition clamp (score : Z) : Z := Z.max 0 (Z.min 100 score).

(** The score of a type-matching vehicle before the seating rule and the
    clamp: 100, minus 10 per missing must-have feature, plus or minus 10 for
    the fuel preference. *)
Definition unclamped_score (vehicle : Vehicle) (preferences : Preferences) : Z :=
  let missing_features : gset string :=
    list_to_set (mustHaveFeatures preferences)
    ∖ list_to_set (features vehicle) in
  100 - Z.of_nat (size missing_features) * 10
  + (if contains (lower (fuelPreference preferences))
                 (lower (fuelType (engine vehicle)))
     then 10 else -10).

(** The preferences with another seating minimum, all else unchanged. *)
Definition with_seatingMinimum (preferences : Preferences) (m : Z) : Preferences :=
  {| vehicleTypes := vehicleTypes preferences;
     mustHaveFeatures := mustHaveFeatures preferences;
     seatingMinimum := m;
     fuelPreference := fuelPreference preferences |}.

(** Sample records. *)
Definition truck : Vehicle :=
  {| type := "Trucks"; features := ["Bluetooth"];
     seatingCapacity := Some "5";
     engine := {| fuelType := "Gasoline" |} |}.

Definition truck_buyer (seats : Z) : Preferences :=
  {| vehicleTypes := ["Trucks"]; mustHaveFeatures := ["Bluetooth"];
     seatingMinimum := seats; fuelPreference := "gas" |}.

Definition picky_buyer : Preferences :=
  {| vehicleTypes := ["Trucks"];
     mustHaveFeatures := ["Bluetooth"; "Sunroof"; "Heated Seats"];
     seatingMinimum := 5; fuelPreference := "gas" |}.

(** The errors of float arithmetic. *)
Definition arithmetic_error (e : exn) : Prop :=
  e = ZeroDivisionError \/ e = OverflowError.

(** The dictionary the depreciation calculator builds from its lists. *)
Definition depreciation_dict (values depreciation_amounts cumulative : list float)
    : dict :=
  list_to_map
    [ ("yearly_values", PyList values);
      ("yearly_depreciation", PyList depreciation_amounts);
      ("cumulative_depreciation", PyList cumulative) ].

(** What the calculator returns for 20000 at 50% over 3 years (the powers
    of 0.5 are doubles). *)
Definition sample_depreciation : dict :=
  (depreciation_dict [10000; 5000; 2500] [10000; 5000; 2500]
     [10000; 15000; 17500])%float.

(** What the scratch helper returns for an income of 5000, expenses of 500
    and a down payment of 2000 at 1200% over 12 months: the monthly rate is
    1, and the power 2 ** -12 is a double. *)
Definition sample_max_affordable : dict :=
  list_to_map
    [ ("max_monthly_payment", PyFloat 500);
      ("max_vehicle_price", PyFloat 2499.88) ].

(** The preferences with other must-have features, all else unchanged. *)
Definition with_mustHaveFeatures (preferences : Preferences)
    (l : list string) : Preferences :=
  {| vehicleTypes := vehicleTypes preferences;
     mustHaveFeatures := l;
     seatingMinimum := seatingMinimum preferences;
     fuelPreference := fuelPreference preferences |}.

(** How often a character occurs in a string. *)
Fixpoint count_char (c : ascii) (s : string) : nat :=
  match s with
  | EmptyString => 0%nat
  | String c' s' => ((if Ascii.eqb c c' then 1 else 0) + count_char c s')%nat
  end.

(** The strings of a vehicle that the scorer lowers or reads as a number
    are ASCII strings. *)
Definition ascii_vehicle (vehicle : Vehicle) : bool :=
  is_ascii (fuelType (engine vehicle))
  && match seatingCapacity vehicle with
     | Some s => is_ascii s
     | None => true
     end.

(** A row the quiz keeps: the scorer returns for it, with 50 or more. *)
Definition qualifies (preferences : Preferences) (row : Service.Row) : bool :=
  match calculate_match_score (Service.attributes row) preferences with
  | Ok score => 50 <=? score
  | Raise _ => false
  end.

(** Highest score first. *)
Definition by_score_descending (a b : Service.Recommendation.t) : Prop :=
  Service.Recommendation.matchScore b <= Service.Recommendation.matchScore a.

(** Sample requests and rows. *)
Definition truck_row : Service.Row :=
  {| Service.attributes := truck;
     Service.price_baseMSRP := PyStr "45000";
     Service.dealerships := [] |}.

Definition sample_budget : Service.Budget.t :=
  {| Service.Budget.monthly := 500; Service.Budget.downPayment := 2000 |}.

Definition lease_quiz : Service.QuizRequest.t :=
  {| Service.QuizRequest.budget := sample_budget;
     Service.QuizRequest.preferences := truck_buyer 5;
     Service.QuizRequest.financing :=
       {| Service.FinancingPreference.preferredType :=
            Service.FinancingPreference.lease;
          Service.FinancingPreference.termLength := 36 |} |}.

Definition loan_quiz : Service.QuizRequest.t :=
  {| Service.QuizRequest.budget := sample_budget;
     Service.QuizRequest.preferences :=
       {| vehicleTypes := ["Sedans"]; mustHaveFeatures := [];
          seatingMinimum := 4; fuelPreference := "gas" |};
     Service.QuizRequest.financing :=
       {| Service.FinancingPreference.preferredType :=
            Service.FinancingPreference.loan;
          Service.FinancingPreference.termLength := 60 |} |}.

(** Sample stand-ins for what the properties leave open: a [float] that
    rejects every string, days counted as integers, and a calendar that
    prints the day number's sign only. *)
Definition reject_str (s : string) : result float := Raise ValueError.

Definition day_name (d : Z) : string :=
  if d <? 0 then "before" else "after".

(* ===================================================================== *)
(** * Properties                                                          *)
(* ===================================================================== *)

(** ** Sequencing *)

Section Monad.

Context {A B : Type}.

(** A sequence returns only if both of its steps return. *)
Lemma bind_Ok (c : result A) (k : A -> result B) (b : B) :
  c ≫= k = Ok b -> exists a, c = Ok a /\ k a = Ok b.
Proof. destruct c as [a | e]; [eauto | discriminate]. Qed.

Lemma bind_Ok_eq (c : result A) (k : A -> result B) (a : A) :
  c = Ok a -> c ≫= k = k a.
Proof. intros ->. reflexivity. Qed.

Lemma bind_ret (a : A) (k : A -> result B) : Ok a ≫= k = k a.
Proof. reflexivity. Qed.

End Monad.

(** Run one step of a sequence whose outcome [H] gives. *)
Ltac step H := rewrite (bind_Ok_eq _ _ _ H); cbv beta.

(** ** Rounding to binary64 *)

Section Binary64.

(** Bounds on what rounding to binary64 returns, from the definitions of
    the specification floats and the axioms that tie the primitive floats
    to them. *)

(** The number of binary digits of a positive. *)
Lemma digits2_pos_bounds (p : positive) :
  2 ^ (Z.pos (digits2_pos p) - 1) <= Z.pos p < 2 ^ Z.pos (digits2_pos p).
Proof.
  induction p as [p IH | p IH |]; cbn [digits2_pos].
  - rewrite Pos2Z.inj_succ.
    replace (Z.succ (Z.pos (digits2_pos p)) - 1)
      with (Z.succ (Z.pos (digits2_pos p) - 1)) by lia.
    rewrite !Z.pow_succ_r by lia. lia.
  - rewrite Pos2Z.inj_succ.
    replace (Z.succ (Z.pos (digits2_pos p)) - 1)
      with (Z.succ (Z.pos (digits2_pos p) - 1)) by lia.
    rewrite !Z.pow_succ_r by lia. lia.
  - cbn. lia.
Qed.

Lemma digits2_pos_le (p : positive) (k : Z) :
  Z.pos p < 2 ^ k -> Z.pos (digits2_pos p) <= k.
Proof.
  intros H.
  destruct (Z.le_gt_cases (Z.pos (digits2_pos p)) k) as [| Hk]; [assumption |].
  pose proof (digits2_pos_bounds p) as [Hlo _].
  assert (2 ^ k <= 2 ^ (Z.pos (digits2_pos p) - 1)).
  { destruct (Z.le_gt_cases 0 k).
    - apply Z.pow_le_mono_r; lia.
    - rewrite (Z.pow_neg_r 2 k) by lia. apply Z.pow_nonneg. lia. }
  lia.
Qed.

Lemma digits2_pos_iter_xO (m d : positive) :
  digits2_pos (Pos.iter xO m d) = (digits2_pos m + d)%positive.
Proof.
  induction d as [| d IH] using Pos.peano_ind.
  - cbn. lia.
  - rewrite Pos.iter_succ. cbn [digits2_pos]. rewrite IH. lia.
Qed.

Lemma shr_1_m (mrs : shr_record) :
  0 <= shr_m mrs -> shr_m (shr_1 mrs) = shr_m mrs / 2.
Proof.
  destruct mrs as [m r s]. cbn [shr_m]. intros Hm.
  destruct m as [| [p | p |] | p]; cbn [shr_1 shr_m]; try lia.
  - reflexivity.
  - rewrite Pos2Z.inj_xI. apply Z.div_unique with 1; lia.
  - rewrite Pos2Z.inj_xO. apply Z.div_unique with 0; lia.
  - reflexivity.
Qed.

Lemma iter_shr_1_m (p : positive) :
  forall mrs, 0 <= shr_m mrs ->
    shr_m (SpecFloat.iter_pos shr_1 p mrs) = shr_m mrs / 2 ^ Z.pos p.
Proof.
  assert (Hnn : forall mrs, 0 <= shr_m mrs -> 0 <= shr_m (shr_1 mrs)).
  { intros mrs H. rewrite shr_1_m by assumption. apply Z.div_pos; lia. }
  induction p as [p IH | p IH |]; intros mrs Hm; cbn [SpecFloat.iter_pos];
    try assert (Hp : 0 < 2 ^ Z.pos p) by (apply Z.pow_pos_nonneg; lia).
  - assert (H1 := Hnn mrs Hm).
    assert (0 <= shr_m (SpecFloat.iter_pos shr_1 p (shr_1 mrs))).
    { rewrite IH by assumption. apply Z.div_pos; lia. }
    rewrite !IH, shr_1_m by assumption.
    rewrite !Z.div_div by lia.
    f_equal. rewrite Pos2Z.inj_xI.
    replace (2 * Z.pos p + 1) with (1 + Z.pos p + Z.pos p) by lia.
    rewrite !Z.pow_add_r by lia. lia.
  - assert (0 <= shr_m (SpecFloat.iter_pos shr_1 p mrs)).
    { rewrite IH by assumption. apply Z.div_pos; lia. }
    rewrite !IH by assumption.
    rewrite !Z.div_div by lia.
    f_equal. rewrite <- Z.pow_add_r by lia. f_equal. lia.
  - rewrite shr_1_m by assumption. reflexivity.
Qed.

Lemma round_nearest_even_bounds (m : Z) (l : location) :
  m <= round_nearest_even m l <= m + 1.
Proof.
  destruct l as [| []]; cbn; try lia.
  destruct (Z.even m); lia.
Qed.

Lemma shl_align_digits (mx : positive) (ex f : Z) :
  let '(mz, ez) := shl_align mx ex f in
  Z.pos (digits2_pos mz) + ez = Z.pos (digits2_pos mx) + ex /\ ez <= f.
Proof.
  unfold shl_align. destruct (f - ex) as [| d | d] eqn:Hd.
  - lia.
  - lia.
  - rewrite digits2_pos_iter_xO. lia.
Qed.

(** First shift of [binary_round_aux]: the mantissa is cut to 53 bits and
    the exponent becomes [fexp] of the magnitude. *)
Lemma shr_fexp_first (mz : positive) (ez : Z) :
  let f := fexp prec emax (Z.pos (digits2_pos mz) + ez) in
  ez <= f ->
  exists mrs, shr_fexp prec emax (Z.pos mz) ez loc_Exact = (mrs, f)
              /\ 0 <= shr_m mrs < 2 ^ 53.
Proof.
  intros f Hez. unfold shr_fexp. cbn [Zdigits2]. fold f.
  pose proof (digits2_pos_bounds mz) as [_ Hhi].
  unfold shr. destruct (f - ez) as [| p | p] eqn:Hd.
  - exists (shr_record_of_loc (Z.pos mz) loc_Exact).
    split; [f_equal; lia |]. cbn [shr_record_of_loc shr_m].
    split; [lia |].
    eapply Z.lt_le_trans; [exact Hhi |].
    apply Z.pow_le_mono_r; [lia |].
    subst f. cbv [fexp emin prec emax] in *. lia.
  - exists (SpecFloat.iter_pos shr_1 p
              (shr_record_of_loc (Z.pos mz) loc_Exact)).
    split; [f_equal; lia |].
    rewrite iter_shr_1_m by (cbn; lia). cbn [shr_record_of_loc shr_m].
    assert (Hp : 0 < 2 ^ Z.pos p) by (apply Z.pow_pos_nonneg; lia).
    split; [apply Z.div_pos; lia |].
    apply Z.div_lt_upper_bound; [lia |].
    rewrite <- Z.pow_add_r by lia.
    eapply Z.lt_le_trans; [exact Hhi |].
    apply Z.pow_le_mono_r; [lia |].
    subst f. cbv [fexp emin prec emax] in *. lia.
  - lia.
Qed.

(** Second shift: after rounding, at most one more bit is dropped. *)
Lemma shr_fexp_second (m f : Z) :
  0 <= m <= 2 ^ 53 ->
  fexp prec emax f <= f ->
  exists mrs e, shr_fexp prec emax m f loc_Exact = (mrs, e)
                /\ e <= f + 1
                /\ (shr_m mrs = 0
                    \/ exists q, shr_m mrs = Z.pos q
                                 /\ Z.pos (digits2_pos q) <= 53).
Proof.
  intros Hm Hf. unfold shr_fexp.
  destruct m as [| q | q]; [| | lia].
  - cbn [Zdigits2]. rewrite Z.add_0_l. unfold shr.
    destruct (fexp prec emax f - f) eqn:Hd; try lia.
    + eexists _, _. split; [reflexivity |]. split; [lia |]. left. reflexivity.
    + eexists _, _. split; [reflexivity |]. split; [lia |]. left. reflexivity.
  - cbn [Zdigits2].
    assert (Hq : Z.pos (digits2_pos q) <= 54).
    { apply digits2_pos_le. change (2 ^ 54) with (2 * 2 ^ 53). lia. }
    unfold shr.
    destruct (fexp prec emax (Z.pos (digits2_pos q) + f) - f)
      as [| p | p] eqn:Hd.
    + eexists _, _. split; [reflexivity |]. split; [lia |]. right.
      exists q. split; [reflexivity |].
      cbv [fexp emin prec emax] in *. lia.
    + assert (p = 1%positive) as -> by (cbv [fexp emin prec emax] in *; lia).
      eexists _, _. split; [reflexivity |]. split; [lia |].
      cbn [SpecFloat.iter_pos]. rewrite shr_1_m by (cbn; lia).
      cbn [shr_record_of_loc shr_m].
      destruct (Z.pos q / 2) as [| q' | q'] eqn:Hq'.
      * left. reflexivity.
      * right. exists q'. split; [reflexivity |].
        apply digits2_pos_le. rewrite <- Hq'.
        apply Z.div_lt_upper_bound; lia.
      * pose proof (Z.div_pos (Z.pos q) 2). lia.
    + eexists _, _. split; [reflexivity |]. split; [lia |]. right.
      exists q. split; [reflexivity |].
      cbv [fexp emin prec emax] in *. lia.
Qed.

(** Rounding a mantissa and exponent to binary64: the result is a zero or
    a finite number with at most 53 bits whose exponent is at most one above
    [fexp] of the magnitude of the argument; it is an infinity only if that
    exponent is beyond the range. *)
Lemma binary_round_bound (sx : bool) (mx : positive) (ex : Z) :
  let f := fexp prec emax (Z.pos (digits2_pos mx) + ex) in
  f + 1 <= emax - prec ->
  binary_round prec emax sx mx ex = S754_zero sx
  \/ exists m e, binary_round prec emax sx mx ex = S754_finite sx m e
                 /\ Z.pos (digits2_pos m) <= 53 /\ e <= f + 1.
Proof.
  intros f Hf. unfold binary_round. fold f.
  pose proof (shl_align_digits mx ex f) as Hal.
  destruct (shl_align mx ex f) as [mz ez]. destruct Hal as [HD Hez].
  unfold binary_round_aux.
  destruct (shr_fexp_first mz ez) as (mrs & -> & Hmrs); rewrite HD;
    [exact Hez |].
  fold f.
  pose proof (round_nearest_even_bounds (shr_m mrs) (loc_of_shr_record mrs))
    as Hr.
  destruct (shr_fexp_second
              (round_nearest_even (shr_m mrs) (loc_of_shr_record mrs)) f)
    as (mrs2 & e2 & -> & He2 & Hm2).
  - lia.
  - subst f. cbv [fexp emin prec emax]. lia.
  - destruct Hm2 as [-> | (q & -> & Hq)]; [left; reflexivity |].
    right. exists q, e2.
    replace (e2 <=? emax - prec) with true by (symmetry; apply Z.leb_le; lia).
    auto.
Qed.

Lemma is_infinity_finite (x : float) :
  SF_is_finite (Prim2SF x) = true -> is_infinity x = false.
Proof.
  intros H. unfold is_infinity.
  rewrite FloatAxioms.eqb_spec, FloatAxioms.abs_spec.
  destruct (Prim2SF x) as [| | | s m e]; try discriminate; reflexivity.
Qed.

Lemma binary_round_finite (sx : bool) (mx : positive) (ex : Z) :
  Z.pos (digits2_pos mx) + ex <= 1023 ->
  SF_is_finite (binary_round prec emax sx mx ex) = true.
Proof.
  intros H.
  destruct (binary_round_bound sx mx ex) as [-> | (m & e & -> & _)];
    [| reflexivity ..].
  cbv [fexp emin prec emax]. lia.
Qed.

(** A finite number with at most 53 bits and a moderate exponent is read
    back by [SF2Prim] as a finite float. *)
Lemma SF2Prim_finite (s : bool) (m : positive) (e : Z) :
  Z.pos (digits2_pos m) <= 53 -> e <= 960 ->
  is_infinity (SF2Prim (S754_finite s m e)) = false.
Proof.
  intros Hm He. apply is_infinity_finite. unfold SF2Prim.
  assert (Hf : SF_is_finite
                 (Prim2SF (Z.ldexp (of_uint63 (Uint63Axioms.of_Z (Z.pos m))) e))
               = true).
  { rewrite Z_ldexp_spec, FloatAxioms.of_uint63_spec, Uint63.of_Z_spec.
    pose proof (digits2_pos_bounds m) as [_ Hhi].
    assert (Z.pos m < 2 ^ 53).
    { eapply Z.lt_le_trans; [exact Hhi |]. apply Z.pow_le_mono_r; lia. }
    rewrite Z.mod_small by (change Uint63.wB with (2 ^ 63); split; [lia |];
      eapply Z.lt_trans; [eassumption | reflexivity]).
    cbn [binary_normalize].
    destruct (binary_round_bound false m 0)
      as [-> | (m2 & e2 & -> & Hm2 & He2)].
    - cbv [fexp emin prec emax]. lia.
    - reflexivity.
    - cbn [SFldexp]. apply binary_round_finite.
      cbv [fexp emin prec emax] in He2. lia. }
  destruct s; [| exact Hf].
  rewrite FloatAxioms.opp_spec.
  destruct (Prim2SF (Z.ldexp _ e)); try discriminate; reflexivity.
Qed.

(** The double 1.0 and the double 0.0 as specification floats. *)
Lemma Prim2SF_one : Prim2SF 1 = S754_finite false 4503599627370496 (-52).
Proof. reflexivity. Qed.

Lemma Prim2SF_zero : Prim2SF 0 = S754_zero false.
Proof. reflexivity. Qed.

(** A float in [0, 1] is a zero or a positive finite number with an
    exponent of at most -52. *)
Lemma unit_interval_SF (x : float) :
  (0 <=? x)%float = true -> (x <=? 1)%float = true ->
  (exists s, Prim2SF x = S754_zero s)
  \/ exists m e, Prim2SF x = S754_finite false m e
                 /\ Z.pos (digits2_pos m) <= 53 /\ e <= -52.
Proof.
  rewrite !FloatAxioms.leb_spec, Prim2SF_one, Prim2SF_zero.
  pose proof (Prim2SF_valid x) as Hv.
  destruct (Prim2SF x) as [s | s | | s m e].
  - eauto.
  - destruct s; discriminate.
  - discriminate.
  - destruct s; [discriminate |]. intros _ H1. right. exists m, e.
    split; [reflexivity |].
    unfold valid_binary, bounded, canonical_mantissa in Hv.
    apply andb_prop in Hv as [Hc _].
    apply Z.eqb_eq in Hc. cbv [fexp emin prec emax] in Hc.
    split; [lia |].
    unfold SFleb, SFcompare in H1.
    destruct (Z.compare_spec e (-52)); [lia | lia | discriminate].
Qed.

Lemma digits2_pos_mono (p q : positive) :
  (p <= q)%positive -> Z.pos (digits2_pos p) <= Z.pos (digits2_pos q).
Proof.
  intros H. apply digits2_pos_le.
  pose proof (digits2_pos_bounds q). lia.
Qed.

Lemma shl_align_le (mx : positive) (ex f : Z) :
  f <= ex ->
  exists mz, shl_align mx ex f = (mz, f)
             /\ Z.pos (digits2_pos mz) + f = Z.pos (digits2_pos mx) + ex.
Proof.
  intros H. unfold shl_align. destruct (f - ex) as [| d | d] eqn:Hd.
  - exists mx. split; [f_equal |]; lia.
  - lia.
  - eexists. split; [reflexivity |]. rewrite digits2_pos_iter_xO. lia.
Qed.

(** Rounding an integer of magnitude below 2^(1 - e) at exponent e <= -52
    gives a zero or a finite number with exponent at most -51. *)
Lemma binary_normalize_unit (M e : Z) :
  Zdigits2 M + e <= 1 ->
  match binary_normalize prec emax M e false with
  | S754_zero _ => True
  | S754_finite _ m' e' => Z.pos (digits2_pos m') <= 53 /\ e' <= -51
  | _ => False
  end.
Proof.
  intros HD. destruct M as [| p | p]; cbn [binary_normalize Zdigits2] in *.
  - exact I.
  - destruct (binary_round_bound false p e)
      as [-> | (m' & e' & -> & Hm' & He')];
      cbv [fexp emin prec emax] in *; [lia | exact I | lia].
  - destruct (binary_round_bound true p e)
      as [-> | (m' & e' & -> & Hm' & He')];
      cbv [fexp emin prec emax] in *; [lia | exact I | lia].
Qed.

(** The retained fraction 1 - rate of a rate in [0, 1] is a zero or a
    finite number below 4. *)
Lemma sub_one_unit (rate : float) :
  (0 <=? rate)%float = true -> (rate <=? 1)%float = true ->
  match Prim2SF (1 - rate) with
  | S754_zero _ => True
  | S754_finite _ m e => Z.pos (digits2_pos m) <= 53 /\ e <= -51
  | _ => False
  end.
Proof.
  intros H0 H1. rewrite FloatAxioms.sub_spec, Prim2SF_one.
  destruct (unit_interval_SF rate H0 H1) as [[s ->] | (m & e & -> & Hm & He)].
  - unfold SF64sub, SFsub.
    change (Z.pos (digits2_pos 4503599627370496)) with 53. lia.
  - unfold SF64sub, SFsub. cbn [cond_Zopp].
    replace (Z.min (-52) e) with e by lia.
    destruct (shl_align_le 4503599627370496 (-52) e He) as (a & -> & Ha).
    destruct (shl_align_le m e e (Z.le_refl e)) as (b & -> & Hb).
    cbn [fst]. change (Z.pos (digits2_pos 4503599627370496)) with 53 in Ha.
    apply binary_normalize_unit.
    destruct (Z.pos a - Z.pos b) as [| p | p] eqn:Hp; cbn [Zdigits2].
    + lia.
    + pose proof (digits2_pos_mono p a ltac:(lia)). lia.
    + pose proof (digits2_pos_mono p b ltac:(lia)). lia.
Qed.

(** The correctly rounded power of a base below 2^D, D = digits + e, to a
    positive exponent n is finite when D × n is at most 1000. *)
Lemma correctly_rounded_power_finite (m : positive) (e : Z) (n : positive) :
  (Z.pos (digits2_pos m) + e) * Z.pos n <= 1000 ->
  is_infinity (SF2Prim (correctly_rounded_power m e (Z.pos n))) = false.
Proof.
  intros HDn. unfold correctly_rounded_power. cbn [binary_normalize].
  assert (HD : Z.pos (digits2_pos (m ^ n))
               <= Z.pos (digits2_pos m) * Z.pos n).
  { apply digits2_pos_le. rewrite Pos2Z.inj_pow, Z.pow_mul_r by lia.
    apply Z.pow_lt_mono_l; [lia |].
    pose proof (digits2_pos_bounds m) as [_ Hhi]. lia. }
  destruct (binary_round_bound false (m ^ n) (e * Z.pos n))
    as [-> | (m' & e' & -> & Hm' & He')].
  - cbv [fexp emin prec emax]. lia.
  - reflexivity.
  - apply SF2Prim_finite; [assumption |].
    cbv [fexp emin prec emax] in He'. lia.
Qed.

(** *** Lower bounds *)

Lemma digits2_pos_ge (p : positive) (j : Z) :
  0 <= j -> 2 ^ j <= Z.pos p -> j + 1 <= Z.pos (digits2_pos p).
Proof.
  intros Hj H. pose proof (digits2_pos_bounds p) as [_ Hhi].
  assert (2 ^ j < 2 ^ Z.pos (digits2_pos p)) as Hlt by lia.
  apply Z.pow_lt_mono_r_iff in Hlt; lia.
Qed.

(** The first shift keeps the leading bit when the magnitude is above the
    smallest exponent. *)
Lemma shr_fexp_first_lower (mz : positive) (ez D f : Z) :
  D = Z.pos (digits2_pos mz) + ez ->
  f = fexp prec emax D ->
  ez <= f -> f <= D - 1 ->
  exists mrs, shr_fexp prec emax (Z.pos mz) ez loc_Exact = (mrs, f)
              /\ 2 ^ (D - 1 - f) <= shr_m mrs < 2 ^ 53.
Proof.
  intros HD Hf Hez HfD.
  destruct (shr_fexp_first mz ez) as (mrs & Heq & Hlo & Hhi);
    [rewrite <- HD, <- Hf; exact Hez |].
  rewrite <- HD, <- Hf in Heq.
  exists mrs. split; [exact Heq |]. split; [| exact Hhi].
  revert Heq. unfold shr_fexp. cbn [Zdigits2]. rewrite <- HD, <- Hf.
  pose proof (digits2_pos_bounds mz) as [Hmz _].
  unfold shr. destruct (f - ez) as [| p | p] eqn:Hd; intros [= <-].
  - cbn [shr_record_of_loc shr_m].
    replace (D - 1 - f) with (Z.pos (digits2_pos mz) - 1) by lia. exact Hmz.
  - rewrite iter_shr_1_m by (cbn [shr_record_of_loc shr_m]; lia).
    cbn [shr_record_of_loc shr_m].
    assert (Hp : 0 < 2 ^ Z.pos p) by (apply Z.pow_pos_nonneg; lia).
    apply Z.div_le_lower_bound; [lia |].
    rewrite <- Z.pow_add_r by lia.
    replace (Z.pos p + (D - 1 - f)) with (Z.pos (digits2_pos mz) - 1) by lia.
    exact Hmz.
  - lia.
Qed.

(** Rounding does not lower the magnitude of a number above the smallest
    exponent: the result is an infinity or a finite number at least as
    large in magnitude. *)
Lemma binary_round_lower (sx : bool) (mx : positive) (ex : Z) :
  let D := Z.pos (digits2_pos mx) + ex in
  emin + 1 <= D ->
  binary_round prec emax sx mx ex = S754_infinity sx
  \/ exists m e, binary_round prec emax sx mx ex = S754_finite sx m e
                 /\ D <= Z.pos (digits2_pos m) + e.
Proof.
  intros D HD. unfold binary_round. fold D.
  set (f := fexp prec emax D).
  pose proof (shl_align_digits mx ex f) as Hal.
  destruct (shl_align mx ex f) as [mz ez]. destruct Hal as [HDz Hez].
  fold D in HDz.
  assert (HfD : f <= D - 1) by (subst f; cbv [fexp emin prec emax] in *; lia).
  assert (HfD' : D - 53 <= f) by (subst f; cbv [fexp emin prec emax]; lia).
  unfold binary_round_aux.
  destruct (shr_fexp_first_lower mz ez D f) as (mrs & -> & Hlo & Hhi);
    [lia | reflexivity | exact Hez | exact HfD |].
  pose proof (round_nearest_even_bounds (shr_m mrs) (loc_of_shr_record mrs)) as Hr.
  assert (H1 : 1 <= 2 ^ (D - 1 - f)) by (apply (Z.pow_le_mono_r 2 0); lia).
  destruct (round_nearest_even (shr_m mrs) (loc_of_shr_record mrs))
    as [| q | q]; [lia | | lia].
  unfold shr_fexp. cbn [Zdigits2 shr_record_of_loc].
  assert (Hdq : D - f <= Z.pos (digits2_pos q)).
  { pose proof (digits2_pos_ge q (D - 1 - f)). lia. }
  unfold shr.
  destruct (fexp prec emax (Z.pos (digits2_pos q) + f) - f) as [| p | p] eqn:Hd.
  - cbn [shr_m fst snd].
    destruct (f <=? emax - prec); [right | left; reflexivity].
    exists q, f. split; [reflexivity | lia].
  - assert (Hq54 : Z.pos (digits2_pos q) <= 54).
    { apply digits2_pos_le. change (2 ^ 54) with (2 * 2 ^ 53). lia. }
    assert (p = 1%positive) as -> by (cbv [fexp emin prec emax] in *; lia).
    assert (Hq54' : Z.pos (digits2_pos q) = 54)
      by (cbv [fexp emin prec emax] in *; lia).
    cbn [SpecFloat.iter_pos]. rewrite shr_1_m by (cbn [shr_m]; lia).
    cbn [shr_m].
    pose proof (digits2_pos_bounds q) as [Hqlo _]. rewrite Hq54' in Hqlo.
    change (2 ^ (54 - 1)) with (2 * 2 ^ 52) in Hqlo.
    assert (Hhalf : 2 ^ 52 <= Z.pos q / 2)
      by (apply Z.div_le_lower_bound; lia).
    destruct (Z.pos q / 2) as [| q' | q'] eqn:Hq'; [lia | | lia].
    destruct (f + 1 <=? emax - prec); [right | left; reflexivity].
    exists q', (f + 1). split; [reflexivity |].
    pose proof (digits2_pos_ge q' 52). lia.
  - cbn [shr_m fst snd].
    destruct (f <=? emax - prec); [right | left; reflexivity].
    exists q, f. split; [reflexivity | lia].
Qed.

(** Rounding keeps the sign: the result of [binary_round_aux] is a zero, a
    finite number or an infinity of the given sign, or a nan. *)
Lemma binary_round_aux_sign (sx : bool) (mx ex : Z) (lx : location) :
  match binary_round_aux prec emax sx mx ex lx with
  | S754_finite s _ _ => s = sx
  | _ => True
  end.
Proof.
  unfold binary_round_aux.
  destruct (shr_fexp prec emax mx ex lx) as [mrs' e'].
  destruct (shr_fexp prec emax _ e' loc_Exact) as [mrs'' e''].
  destruct (shr_m mrs''); [exact I | | exact I].
  destruct (e'' <=? emax - prec); [reflexivity | exact I].
Qed.

Lemma leb_zero_nonneg (x : float) :
  (0 <=? x)%float = true -> SF_nonneg (Prim2SF x) = true.
Proof.
  rewrite FloatAxioms.leb_spec, Prim2SF_zero.
  destruct (Prim2SF x) as [s | s | | [] m e]; try reflexivity.
  discriminate.
Qed.

(** Dividing by a positive finite number keeps a number non-negative. *)
Lemma div_nonneg (x y : float) (my : positive) (ey : Z) :
  SF_nonneg (Prim2SF x) = true ->
  Prim2SF y = S754_finite false my ey ->
  SF_nonneg (Prim2SF (x / y)) = true.
Proof.
  intros Hx Hy. rewrite FloatAxioms.div_spec, Hy.
  unfold SF64div, SFdiv.
  destruct (Prim2SF x) as [s | s | | s mx ex]; try reflexivity.
  destruct s; [discriminate |].
  destruct (SFdiv_core_binary prec emax (Z.pos mx) ex (Z.pos my) ey)
    as [[mz ez] lz].
  pose proof (binary_round_aux_sign (xorb false false) mz ez lz) as Hs.
  destruct (binary_round_aux prec emax (xorb false false) mz ez lz)
    as [| | | s m e]; try reflexivity.
  rewrite Hs. reflexivity.
Qed.

(** One plus a non-negative number is an infinity, a nan, or a finite
    number of magnitude at least one. *)
Lemma add_one_nonneg (r : float) :
  SF_nonneg (Prim2SF r) = true ->
  match Prim2SF (1 + r) with
  | S754_zero _ => False
  | S754_finite _ m e =>
      Z.pos (digits2_pos m) <= 53 /\ 1 <= Z.pos (digits2_pos m) + e
  | _ => True
  end.
Proof.
  intros Hr.
  pose proof (Prim2SF_valid (1 + r)) as Hv. revert Hv.
  rewrite FloatAxioms.add_spec, Prim2SF_one.
  unfold SF64add, SFadd.
  destruct (Prim2SF r) as [s | s | | s mr er]; try (intros; exact I).
  - intros _. change (Z.pos (digits2_pos 4503599627370496)) with 53. lia.
  - destruct s; [discriminate |]. cbn [cond_Zopp].
    destruct (shl_align_le 4503599627370496 (-52) (Z.min (-52) er))
      as (a & -> & Ha); [lia |].
    destruct (shl_align_le mr er (Z.min (-52) er)) as (b & -> & Hb); [lia |].
    cbn [fst]. change (Z.pos (digits2_pos 4503599627370496)) with 53 in Ha.
    change (Z.pos a + Z.pos b) with (Z.pos (a + b)).
    cbn [binary_normalize].
    pose proof (digits2_pos_mono a (a + b) ltac:(lia)) as Hab.
    destruct (binary_round_lower false (a + b) (Z.min (-52) er))
      as [-> | (m & e & -> & Hm)].
    + cbv [emin prec emax]. lia.
    + intros; exact I.
    + intros Hv. unfold valid_binary, bounded, canonical_mantissa in Hv.
      apply andb_prop in Hv as [Hc _]. apply Z.eqb_eq in Hc.
      cbv [fexp emin prec emax] in Hc. lia.
Qed.

(** Negative powers of a finite number of magnitude at least one are
    computed without overflow. *)
Lemma correctly_rounded_power_neg_finite (m : positive) (e : Z)
    (n : positive) :
  Z.pos (digits2_pos m) <= 53 -> 1 <= Z.pos (digits2_pos m) + e ->
  is_infinity (SF2Prim (correctly_rounded_power m e (Z.neg n))) = false.
Proof.
  intros Hm HD. unfold correctly_rounded_power, SF_of_ratio.
  change (Z.pos (digits2_pos 1)) with 1.
  set (dq := Z.pos (digits2_pos (m ^ n))).
  replace (Z.max 0 (dq + 56 - 1)) with (dq + 55) by (subst dq; lia).
  rewrite Z.mul_1_l.
  pose proof (digits2_pos_bounds (m ^ n)) as [Hqlo Hqhi]. fold dq in Hqlo, Hqhi.
  pose proof (digits2_pos_bounds m) as [Hmlo _].
  assert (Hdq : Z.pos n * (Z.pos (digits2_pos m) - 1) + 1 <= dq).
  { apply digits2_pos_ge; [subst dq; nia |].
    rewrite Pos2Z.inj_pow, Z.mul_comm, Z.pow_mul_r by lia.
    apply Z.pow_le_mono_l. split; [apply Z.pow_nonneg; lia | exact Hmlo]. }
  set (q := Z.pos (m ^ n)) in *.
  assert (Hk : 2 ^ (dq + 55) = 2 ^ 56 * 2 ^ (dq - 1)).
  { rewrite <- Z.pow_add_r by (subst dq; lia). f_equal. lia. }
  assert (Hpos : 0 < 2 ^ (dq - 1)) by (apply Z.pow_pos_nonneg; subst dq; lia).
  assert (Hup : 2 ^ (dq + 55) / q <= 2 ^ 56).
  { apply Z.div_le_upper_bound; [subst q; lia |]. rewrite Hk.
    rewrite (Z.mul_comm q). apply Z.mul_le_mono_nonneg_l; lia. }
  assert (Hlow : 1 <= 2 ^ (dq + 55) / q).
  { apply Z.div_le_lower_bound; [subst q; lia |].
    rewrite Z.mul_1_r. apply Z.lt_le_incl.
    eapply Z.lt_le_trans; [exact Hqhi |].
    apply Z.pow_le_mono_r; subst dq; lia. }
  set (mq := 2 ^ (dq + 55) / q) in *.
  set (sticky := if 2 ^ (dq + 55) mod q =? 0 then 0 else 1).
  assert (Hst : 0 <= sticky <= 1) by (subst sticky; destruct (_ =? 0); lia).
  cbn [cond_Zopp].
  destruct (2 * mq + sticky) as [| M | M] eqn:HM; [lia | | lia].
  cbn [binary_normalize].
  assert (HdM : Z.pos (digits2_pos M) <= 58).
  { apply digits2_pos_le. rewrite <- HM.
    change (2 ^ 58) with (4 * 2 ^ 56). lia. }
  assert (Hprod : 0 <= Z.pos n * (Z.pos (digits2_pos m) + e - 1)) by nia.
  assert (Hexp : e * Z.neg n = - (Z.pos n * e)) by lia.
  destruct (binary_round_bound false M (e * Z.neg n - (dq + 55) - 1))
    as [-> | (m' & e' & -> & Hm' & He')].
  - cbv [fexp emin prec emax]. lia.
  - reflexivity.
  - apply SF2Prim_finite; [assumption |].
    cbv [fexp emin prec emax] in He'. lia.
Qed.

Lemma is_zero_SF (x : float) :
  is_zero x = true -> exists s, Prim2SF x = S754_zero s.
Proof.
  unfold is_zero. rewrite FloatAxioms.eqb_spec.
  change (Prim2SF zero) with (S754_zero false).
  destruct (Prim2SF x) as [s | s | | s m e]; try discriminate.
  - eauto.
  - destruct s; discriminate.
  - destruct s; discriminate.
Qed.

Lemma SF_zero_is_zero (x : float) (s : bool) :
  Prim2SF x = S754_zero s -> is_zero x = true.
Proof.
  intros H. unfold is_zero. rewrite FloatAxioms.eqb_spec, H.
  destruct s; reflexivity.
Qed.

Lemma SF_infinity_is_infinity (x : float) (s : bool) :
  Prim2SF x = S754_infinity s -> is_infinity x = true.
Proof.
  intros H. unfold is_infinity.
  rewrite FloatAxioms.eqb_spec, FloatAxioms.abs_spec, H. reflexivity.
Qed.

Lemma SF_nan_is_nan (x : float) : Prim2SF x = S754_nan -> is_nan x = true.
Proof.
  intros H. unfold is_nan. rewrite FloatAxioms.eqb_spec, H. reflexivity.
Qed.

(** A valid finite number has at most 53 binary digits. *)
Lemma valid_digits (x : float) (s : bool) (m : positive) (e : Z) :
  Prim2SF x = S754_finite s m e -> Z.pos (digits2_pos m) <= 53.
Proof.
  intros H. pose proof (Prim2SF_valid x) as Hv. rewrite H in Hv.
  unfold valid_binary, bounded, canonical_mantissa in Hv.
  apply andb_prop in Hv as [Hc _]. apply Z.eqb_eq in Hc.
  cbv [fexp emin prec emax] in Hc. lia.
Qed.

(** Every integer of at most 1000 by magnitude is a double. *)
Lemma exponents_ok :
  forallb (fun w => Z_of_integral (float_of_Z w) =? w) (seqZ (-1000) 2001)
  = true.
Proof. vm_compute. reflexivity. Qed.

Lemma exponent_float (w : Z) :
  -1000 <= w <= 1000 -> Z_of_integral (float_of_Z w) = w.
Proof.
  intros Hw. apply Z.eqb_eq.
  apply (proj1 (forallb_forall _ _) exponents_ok).
  apply list_elem_of_In, elem_of_seqZ. lia.
Qed.

(** The reference [pow] meets what is assumed of the C library. *)
Lemma correctly_rounded_no_spurious_overflow :
  @no_spurious_overflow correctly_rounded.
Proof.
  intros x w Hx Hw. unfold positive_finite, binade in *.
  cbn [libm_pow correctly_rounded]. unfold correctly_rounded_pow.
  destruct (Prim2SF x) as [| | | s m e] eqn:Hsf; try discriminate.
  rewrite exponent_float by lia.
  pose proof (valid_digits x s m e Hsf) as Hm.
  destruct w as [| n | n]; [lia | |].
  - apply correctly_rounded_power_finite. lia.
  - apply correctly_rounded_power_neg_finite; [exact Hm | lia].
Qed.

End Binary64.

(** ** Terms and years as floats *)

Section Terms.

(** Every term the request schemas allow (loans 12..84 months, leases
    24..48), its negation, and every number of years (1..10) converts to a
    non-zero double without overflow, and reads back as itself. *)
Lemma terms_ok : forallb term_ok (seqZ (-84) 84 ++ seqZ 1 84) = true.
Proof. vm_compute. reflexivity. Qed.

Lemma term_float (n : Z) :
  1 <= n <= 84 \/ -84 <= n <= -1 ->
  float_of_int n = Ok (float_of_Z n)
  /\ is_zero (float_of_Z n) = false
  /\ Z_of_integral (float_of_Z n) = n.
Proof.
  intros Hn.
  assert (Hin : In n (seqZ (-84) 84 ++ seqZ 1 84)).
  { apply list_elem_of_In, elem_of_app. rewrite !elem_of_seqZ. lia. }
  pose proof (proj1 (forallb_forall term_ok _) terms_ok n Hin) as H.
  unfold term_ok, float_of_int in *.
  destruct (is_infinity (float_of_Z n)); [discriminate |].
  apply andb_prop in H as [Hz Hi].
  split; [reflexivity |]. split.
  - destruct (is_zero (float_of_Z n)); [discriminate | reflexivity].
  - apply Z.eqb_eq. exact Hi.
Qed.

(** [x ** 0] is [1.0] for every base. *)
Lemma float_pow_0 {L : Libm} (x : float) : float_pow x 0 = Ok 1%float.
Proof. reflexivity. Qed.

(** A power whose exact value is far below the largest double is computed
    without error by a C library that does not overflow on it. *)
Lemma float_pow_returns {L : Libm} (x : float) (n : Z) :
  no_spurious_overflow ->
  1 <= n <= 84 \/ -84 <= n <= -1 ->
  match Prim2SF x with
  | S754_zero _ => 0 < n
  | S754_finite _ m e =>
      (0 < n /\ (Z.pos (digits2_pos m) + e) * n <= 1000)
      \/ (n < 0 /\ 1 <= Z.pos (digits2_pos m) + e)
  | _ => True
  end ->
  exists p, float_pow x n = Ok p.
Proof.
  intros Hpow Hn Hx.
  destruct (term_float n Hn) as (Hf & Hz & Hw).
  unfold float_pow. step Hf. rewrite Hz, Hw.
  destruct (is_nan x) eqn:Hnan; [eauto |].
  destruct (is_infinity x) eqn:Hinf; [destruct (0 <? n); eauto |].
  destruct (is_zero x) eqn:Hzero.
  { apply is_zero_SF in Hzero as [s Hs]. rewrite Hs in Hx.
    replace (n <? 0) with false by (symmetry; apply Z.ltb_ge; lia). eauto. }
  destruct (abs x =? 1)%float; [eauto |].
  destruct (Prim2SF x) as [s | s | | s m e] eqn:Hsf.
  - rewrite (SF_zero_is_zero x s Hsf) in Hzero. discriminate.
  - rewrite (SF_infinity_is_infinity x s Hsf) in Hinf. discriminate.
  - rewrite (SF_nan_is_nan x Hsf) in Hnan. discriminate.
  - rewrite Hpow; [eauto | |].
    + unfold positive_finite. rewrite FloatAxioms.abs_spec, Hsf. reflexivity.
    + unfold binade. rewrite FloatAxioms.abs_spec, Hsf. cbn [SFabs]. lia.
Qed.

(** The powers 1 to 10 of the retained fraction of a rate in [0, 1] are
    computed without error. *)
Lemma float_pow_unit_interval {L : Libm} (rate : float) (y : Z) :
  no_spurious_overflow ->
  (0 <=? rate)%float = true -> (rate <=? 1)%float = true ->
  1 <= y <= 10 ->
  float_pow (1 - rate)%float y = Ok (powers_of rate y).
Proof.
  intros Hpow H0 H1 Hy.
  assert (Hret : exists p, float_pow (1 - rate)%float y = Ok p).
  { apply float_pow_returns; [exact Hpow | lia |].
    pose proof (sub_one_unit rate H0 H1) as Hx.
    destruct (Prim2SF (1 - rate)) as [| | | s m e]; [lia | | | ]; try exact I.
    left. split; [lia | nia]. }
  destruct Hret as [p Hp]. unfold powers_of. rewrite Hp. reflexivity.
Qed.

(** The discount factor (1 + r) ** -n of a non-negative monthly rate and a
    term of 1 to 84 months is computed without error. *)
Lemma float_pow_discount {L : Libm} (r : float) (n : Z) :
  no_spurious_overflow ->
  SF_nonneg (Prim2SF r) = true ->
  1 <= n <= 84 ->
  exists p, float_pow (1 + r)%float (- n) = Ok p.
Proof.
  intros Hpow Hr Hn.
  apply float_pow_returns; [exact Hpow | lia |].
  pose proof (add_one_nonneg _ Hr) as Hx.
  destruct (Prim2SF (1 + r)) as [| | | s m e]; [contradiction | | |];
    try exact I.
  right. split; [lia | tauto].
Qed.

(** The discount factor (1 + r) ** -n of a non-negative annual rate and a
    schema-valid term is computed without error. *)
Lemma float_pow_annuity {L : Libm} (rate : float) (n : Z) :
  no_spurious_overflow ->
  (0 <=? rate)%float = true ->
  1 <= n <= 84 ->
  exists p, float_pow (1 + rate / 12 / 100)%float (- n) = Ok p.
Proof.
  intros Hpow H0 Hn. apply float_pow_discount; [exact Hpow | | exact Hn].
  eapply div_nonneg; [eapply div_nonneg |]; [| reflexivity ..].
  apply leb_zero_nonneg. exact H0.
Qed.

End Terms.

(** ** The loan payment *)

Section Loan.

Import FinanceCalculator.

(** The library of the sample evaluations. *)
#[local] Existing Instance correctly_rounded.

(** A zero annual rate takes the straight-line branch. *)
Lemma zero_rate_is_zero : (0 / 12 / 100 =? 0)%float = true.
Proof. reflexivity. Qed.

(** C2 (as the code has it): with a term of zero months the loan calculator
    raises Python's [ZeroDivisionError], in the zero-rate branch and in the
    amortization branch alike, for every price, down payment and rate. *)
Theorem loan_zero_term_raises {L : Libm}
    (vehicle_price down_payment interest_rate : float) :
  calculate_loan_payment vehicle_price down_payment interest_rate 0
  = Raise ZeroDivisionError.
Proof.
  unfold calculate_loan_payment.
  destruct (interest_rate / 12 / 100 =? 0)%float; reflexivity.
Qed.

(** C2, refuted as stated: a term of zero months at 5% surfaces as the
    arithmetic [ZeroDivisionError]. *)
Lemma loan_zero_term_counterexample :
  calculate_loan_payment 30000 5000 5 0 = Raise ZeroDivisionError.
Proof. vm_compute. reflexivity. Qed.

(** The amortization branch divides by [(1 + r) ** n - 1] unguarded: when
    that denominator is zero the calculator raises [ZeroDivisionError]. *)
Lemma loan_zero_denominator_raises {L : Libm}
    (vehicle_price down_payment interest_rate : float) (loan_term_months : Z)
    (p : float) :
  (interest_rate / 12 / 100 =? 0)%float = false ->
  float_pow (1 + interest_rate / 12 / 100)%float loan_term_months = Ok p ->
  is_zero (p - 1) = true ->
  calculate_loan_payment vehicle_price down_payment interest_rate
    loan_term_months = Raise ZeroDivisionError.
Proof.
  intros Hr Hp Hz. unfold calculate_loan_payment.
  rewrite Hr. step Hp. step Hp. unfold truediv. rewrite Hz. reflexivity.
Qed.

(** A schema-valid request on which it does: a rate so small that 1 + r
    rounds to 1. *)
Lemma loan_tiny_rate_raises :
  calculate_loan_payment 30000 5000 1e-14 60 = Raise ZeroDivisionError.
Proof. vm_compute. reflexivity. Qed.

(** At a zero rate and a schema-valid term the calculator takes the
    straight-line branch and returns. *)
Lemma calculate_loan_payment_zero_rate {L : Libm}
    (vehicle_price down_payment : float) (loan_term_months : Z) :
  1 <= loan_term_months <= 84 ->
  calculate_loan_payment vehicle_price down_payment 0 loan_term_months
  = Ok (loan_result
          ((vehicle_price - down_payment) / float_of_Z loan_term_months)
          (vehicle_price - down_payment) (float_of_Z loan_term_months)
          loan_term_months).
Proof.
  intros Hn.
  destruct (term_float loan_term_months) as (Hf & Hz & _); [lia |].
  unfold calculate_loan_payment.
  rewrite zero_rate_is_zero. step Hf.
  unfold truediv. rewrite Hz, bind_ret. step Hf. reflexivity.
Qed.

(** C3 (as the code has it): at a zero rate and a term of 12 to 84 months
    the calculator returns, and its monthly payment is the straight-line
    quotient loanAmount / termMonths rounded to two decimals (no
    compounding). *)
Theorem loan_zero_rate_straight_line {L : Libm}
    (vehicle_price down_payment : float) (loan_term_months : Z) :
  12 <= loan_term_months <= 84 ->
  let loan_amount := (vehicle_price - down_payment)%float in
  exists d : dict,
    calculate_loan_payment vehicle_price down_payment 0 loan_term_months = Ok d
    /\ d !! "monthly_payment"
       = Some (PyFloat (round2 (loan_amount / float_of_Z loan_term_months)))
    /\ d !! "loan_amount" = Some (PyFloat (round2 loan_amount)).
Proof.
  intros Hn loan_amount.
  eexists. split.
  - apply calculate_loan_payment_zero_rate. lia.
  - split; reflexivity.
Qed.

Lemma loan_zero_rate_straight_line_witness :
  exists d : dict,
    calculate_loan_payment 1000 0 0 12 = Ok d
    /\ d !! "monthly_payment"
       = Some (PyFloat (round2 ((1000 - 0) / float_of_Z 12)))
    /\ d !! "loan_amount" = Some (PyFloat (round2 (1000 - 0))).
Proof.
  exact (loan_zero_rate_straight_line 1000 0 12 ltac:(lia)).
Defined.

(** C3, refuted as stated: 1000 over 12 months at 0% returns the payment
    83.33, which is not the quotient 1000 / 12 = 83.333... *)
Lemma loan_zero_rate_counterexample :
  (d ← calculate_loan_payment 1000 0 0 12; getitem d "monthly_payment")
  = Ok (PyFloat 83.33)
  /\ (83.33 =? 1000 / 12)%float = false.
Proof. split; vm_compute; reflexivity. Qed.

(** The keys of a returned loan dictionary. *)
Lemma calculate_loan_payment_keys {L : Libm}
    (vehicle_price down_payment interest_rate : float) (loan_term_months : Z)
    (d : dict) :
  calculate_loan_payment vehicle_price down_payment interest_rate
    loan_term_months = Ok d ->
  dom d = {[ "monthly_payment"; "total_cost"; "total_interest";
             "loan_term_months"; "loan_amount" ]}
  /\ d !! "monthlyPayment" = None.
Proof.
  intros H. unfold calculate_loan_payment in H.
  apply bind_Ok in H as (monthly_payment & _ & H).
  apply bind_Ok in H as (n & _ & H).
  injection H as <-.
  split; [| reflexivity].
  cbn [list_to_map foldr uncurry]. rewrite !dom_insert_L, dom_empty_L.
  set_solver.
Qed.

(** The endpoints' subscript never yields a value: the calculator raises, or
    the key is missing. *)
Lemma endpoint_monthly_payment_raises {L : Libm}
    (price down_payment interest_rate : float) (term : Z) :
  returns (endpoint_monthly_payment price down_payment interest_rate term)
  = false.
Proof.
  unfold endpoint_monthly_payment.
  destruct (calculate_loan_payment price down_payment interest_rate term)
    as [d | e] eqn:H; [| reflexivity].
  rewrite bind_ret. unfold getitem.
  destruct (calculate_loan_payment_keys _ _ _ _ d H) as [_ ->]. reflexivity.
Qed.

(** C9: whenever the loan calculator returns, its dictionary has exactly the
    keys monthly_payment, total_cost, total_interest, loan_term_months and
    loan_amount; the key monthlyPayment is absent, so the subscript the
    affordability and quiz endpoints apply to it raises [KeyError]. *)
Theorem loan_result_keys {L : Libm}
    (vehicle_price down_payment interest_rate : float) (loan_term_months : Z)
    (d : dict) :
  calculate_loan_payment vehicle_price down_payment interest_rate
    loan_term_months = Ok d ->
  dom d = {[ "monthly_payment"; "total_cost"; "total_interest";
             "loan_term_months"; "loan_amount" ]}
  /\ d !! "monthlyPayment" = None
  /\ endpoint_monthly_payment vehicle_price down_payment interest_rate
       loan_term_months = Raise KeyError.
Proof.
  intros H.
  destruct (calculate_loan_payment_keys _ _ _ _ d H) as [Hdom Hkey].
  repeat split; [exact Hdom | exact Hkey |].
  unfold endpoint_monthly_payment. step H. unfold getitem.
  rewrite Hkey. reflexivity.
Qed.

Lemma loan_result_keys_witness :
  dom (loan_result ((30000 - 5000) / float_of_Z 60) (30000 - 5000)
         (float_of_Z 60) 60)
  = {[ "monthly_payment"; "total_cost"; "total_interest";
       "loan_term_months"; "loan_amount" ]}
  /\ loan_result ((30000 - 5000) / float_of_Z 60) (30000 - 5000)
       (float_of_Z 60) 60 !! "monthlyPayment" = None
  /\ endpoint_monthly_payment 30000 5000 0 60 = Raise KeyError.
Proof.
  exact (loan_result_keys 30000 5000 0 60 _
           (calculate_loan_payment_zero_rate 30000 5000 60 ltac:(lia))).
Defined.

End Loan.

(** ** The lease payment *)

Section Lease.

Import FinanceCalculator.

(** For a schema-valid term the lease calculator returns. *)
Lemma calculate_lease_payment_returns
    (vehicle_price residual_value money_factor down_payment : float)
    (lease_term_months : Z) :
  1 <= lease_term_months <= 84 ->
  let capitalized_cost := (vehicle_price - down_payment)%float in
  let n := float_of_Z lease_term_months in
  calculate_lease_payment vehicle_price residual_value money_factor
    down_payment lease_term_months
  = Ok (lease_result capitalized_cost
          ((capitalized_cost - residual_value) / n)
          ((capitalized_cost + residual_value) * money_factor)
          n down_payment lease_term_months).
Proof.
  intros Hn capitalized_cost n.
  destruct (term_float lease_term_months) as (Hf & Hz & _); [lia |].
  unfold calculate_lease_payment.
  step Hf. unfold truediv. rewrite Hz, bind_ret. step Hf. reflexivity.
Qed.

(** C4 (as the code has it): for a lease term of 24 to 48 months the
    calculator returns, and each of the three fields is rounded to two
    decimals on its own: monthly_payment is the rounded sum of the unrounded
    depreciation and finance charge, monthly_depreciation and
    monthly_finance_charge are the two terms rounded separately. *)
Theorem lease_payment_fields
    (vehicle_price residual_value money_factor down_payment : float)
    (lease_term_months : Z) :
  24 <= lease_term_months <= 48 ->
  let capitalized_cost := (vehicle_price - down_payment)%float in
  let depreciation :=
    ((capitalized_cost - residual_value) / float_of_Z lease_term_months)%float in
  let finance_charge :=
    ((capitalized_cost + residual_value) * money_factor)%float in
  exists d : dict,
    calculate_lease_payment vehicle_price residual_value money_factor
      down_payment lease_term_months = Ok d
    /\ d !! "monthly_payment"
       = Some (PyFloat (round2 (depreciation + finance_charge)))
    /\ d !! "monthly_depreciation" = Some (PyFloat (round2 depreciation))
    /\ d !! "monthly_finance_charge" = Some (PyFloat (round2 finance_charge)).
Proof.
  intros Hn capitalized_cost depreciation finance_charge.
  eexists. split.
  - apply calculate_lease_payment_returns. lia.
  - repeat split; reflexivity.
Qed.

Lemma lease_payment_fields_witness :
  exists d : dict,
    calculate_lease_payment 30000 18000 0.00125 2000 36 = Ok d
    /\ d !! "monthly_payment"
       = Some (PyFloat (round2 ((30000 - 2000 - 18000) / float_of_Z 36
                                + (30000 - 2000 + 18000) * 0.00125)))
    /\ d !! "monthly_depreciation"
       = Some (PyFloat (round2 ((30000 - 2000 - 18000) / float_of_Z 36)))
    /\ d !! "monthly_finance_charge"
       = Some (PyFloat (round2 ((30000 - 2000 + 18000) * 0.00125))).
Proof.
  exact (lease_payment_fields 30000 18000 0.00125 2000 36 ltac:(lia)).
Defined.

(** C4, refuted as stated: a valid lease (price 24002.50, residual 14002.50,
    money factor 0.00125, no down payment, 36 months) returns the payment
    325.28 beside a depreciation of 277.78 and a finance charge of 47.51,
    whose sum is 325.29. *)
Lemma lease_payment_counterexample :
  (14002.5 <? 24002.5)%float = true
  /\ (d ← calculate_lease_payment 24002.5 14002.5 0.00125 0 36;
      mp ← getitem d "monthly_payment";
      md ← getitem d "monthly_depreciation";
      mf ← getitem d "monthly_finance_charge";
      Ok (mp, md, mf))
     = Ok (PyFloat 325.28, PyFloat 277.78, PyFloat 47.51)
  /\ (325.28 =? 277.78 + 47.51)%float = false.
Proof. repeat split; vm_compute; reflexivity. Qed.

(** C5: the scratch helper [find_lease_payment], which derives the money
    factor as apr / 2400, agrees with the [monthly_payment] field of
    [calculate_lease_payment] called with that money factor, on every input:
    both return the same float, or both raise the same exception. *)
Theorem find_lease_payment_agrees
    (vehicle_price down_payment residual_value : float) (term_months : Z)
    (apr : float) :
  PyFloat <$> Scratch.find_lease_payment vehicle_price down_payment
                residual_value term_months apr
  = (d ← calculate_lease_payment vehicle_price residual_value
           (apr / 2400)%float down_payment term_months;
     getitem d "monthly_payment").
Proof.
  unfold Scratch.find_lease_payment, calculate_lease_payment.
  destruct (float_of_int term_months) as [n | e] eqn:Hn; [| reflexivity].
  rewrite !bind_ret.
  destruct (truediv _ n) as [dep | e]; [| reflexivity].
  reflexivity.
Qed.

End Lease.

(** ** The scratch loan helper *)

Section ScratchLoan.

(** C10: [find_monthly_payment] raises [NameError] on every input and never
    returns: the principal is bound as the local [p], while both branches
    read the name [P], which neither the module nor the builtins define. *)
Theorem find_monthly_payment_raises_NameError {L : Libm}
    (model_car : string) (amount_desired : float) (n_month_estimated : Z)
    (annual_rate : float) :
  Scratch.find_monthly_payment model_car amount_desired n_month_estimated
    annual_rate = Raise NameError.
Proof.
  unfold Scratch.find_monthly_payment.
  destruct (annual_rate / 100 / 12 =? 0)%float; reflexivity.
Qed.

End ScratchLoan.

(** ** Affordability *)

Section Affordability.

Import FinanceCalculator.

(** The library of the sample evaluations. *)
#[local] Existing Instance correctly_rounded.

(** Whether the calculator raises depends on the rate, the term and nothing
    else: income and expenses are never inspected. *)
Lemma calculate_affordability_unchecked {L : Libm}
    (income expenses income' expenses' down_payment interest_rate : float)
    (loan_term_months : Z) :
  returns (calculate_affordability income expenses down_payment
             interest_rate loan_term_months)
  = returns (calculate_affordability income' expenses' down_payment
               interest_rate loan_term_months).
Proof.
  unfold calculate_affordability.
  destruct (interest_rate / 12 / 100 =? 0)%float.
  - destruct (float_of_int loan_term_months); reflexivity.
  - destruct (float_pow _ _) as [p | e]; [| reflexivity].
    rewrite !bind_ret.
    destruct (truediv _ _); reflexivity.
Qed.




End Affordability.

(** ** Depreciation *)

Section Depreciation.

Import FinanceCalculator.

Context {L : Libm}.
Variables (initial_value annual_depreciation_rate : float).
Variable pw : Z -> float.

(** The loop over the years [a], [a + 1], ..., entered with the value of year
    [a - 1], appends one entry per year to each of the three lists. *)
Lemma depreciation_loop_seqZ (k : nat) :
  forall (a : Z) (values depreciation_amounts cumulative : list float),
    1 <= a ->
    (forall y, a <= y < a + Z.of_nat k ->
               float_pow (1 - annual_depreciation_rate)%float y = Ok (pw y)) ->
    depreciation_loop initial_value annual_depreciation_rate
      (seqZ a (Z.of_nat k)) (year_value initial_value pw (a - 1))
      values depreciation_amounts cumulative
    = Ok (values ++ series_values initial_value pw (seqZ a (Z.of_nat k)),
          depreciation_amounts
            ++ series_depreciation initial_value pw (seqZ a (Z.of_nat k)),
          cumulative
            ++ series_cumulative initial_value pw (seqZ a (Z.of_nat k))).
Proof.
  induction k as [| k IH]; intros a values deps cums Ha Hpw.
  - cbn [Z.of_nat seqZ depreciation_loop]. unfold seqZ.
    cbn [Z.to_nat seq fmap list_fmap series_values series_depreciation
         series_cumulative depreciation_loop].
    rewrite !app_nil_r. reflexivity.
  - rewrite seqZ_cons by lia.
    replace (Z.pred (Z.of_nat (S k))) with (Z.of_nat k) by lia.
    cbn [depreciation_loop].
    rewrite (bind_Ok_eq _ _ _ (Hpw a ltac:(lia))). cbv beta zeta.
    assert (Hv : year_value initial_value pw a = (initial_value * pw a)%float).
    { unfold year_value. destruct (Z.eqb_spec a 0); [lia | reflexivity]. }
    rewrite <- Hv.
    replace (year_value initial_value pw a)
      with (year_value initial_value pw (Z.succ a - 1)) at 1
      by (f_equal; lia).
    rewrite IH; [| lia | intros y Hy; apply Hpw; lia].
    unfold series_values, series_depreciation, series_cumulative.
    rewrite !fmap_cons, <- !app_assoc. reflexivity.
Qed.

(** When every power is computed without error the calculator returns the
    three series over the years 1, ..., [years]. *)
Lemma calculate_depreciation_series (years : Z) :
  0 <= years ->
  (forall y, 1 <= y <= years ->
             float_pow (1 - annual_depreciation_rate)%float y = Ok (pw y)) ->
  calculate_depreciation initial_value years annual_depreciation_rate
  = Ok (depreciation_result initial_value pw years).
Proof.
  intros Hy Hpw. unfold calculate_depreciation.
  pose proof (depreciation_loop_seqZ (Z.to_nat years) 1 [] [] []) as H.
  rewrite Z2Nat.id in H by lia.
  change (year_value initial_value pw (1 - 1)) with initial_value in H.
  rewrite H; [reflexivity | lia | intros y Hy'; apply Hpw; lia].
Qed.

(** Entry [y - 1] of each list is the entry of year [y]: year 1 first. *)
Lemma series_lookup (f : Z -> float) (years y : Z) :
  1 <= y <= years ->
  (f <$> seqZ 1 years) !! Z.to_nat (y - 1) = Some (f y).
Proof.
  intros Hy. rewrite list_lookup_fmap.
  rewrite (proj2 (lookup_seqZ 1 years (Z.to_nat (y - 1)) y)); [reflexivity |].
  lia.
Qed.

Lemma series_length (f : Z -> float) (years : Z) :
  length (f <$> seqZ 1 years) = Z.to_nat years.
Proof. rewrite length_fmap, length_seqZ. reflexivity. Qed.

End Depreciation.

Section DepreciationClaim.

Import FinanceCalculator.

(** The library of the sample evaluations. *)
#[local] Existing Instance correctly_rounded.




End DepreciationClaim.

(** ** The match score *)

Section MatchScore.

Lemma clamp_bounds (score : Z) : 0 <= clamp score <= 100.
Proof. unfold clamp. lia. Qed.

(** [int] raises nothing but [ValueError]. *)
Lemma int_of_str_raises (s : string) (e : exn) :
  int_of_str s = Raise e -> e = ValueError.
Proof.
  unfold int_of_str.
  destruct (match lstrip s with EmptyString => _ | _ => _ end);
    [destruct (_ <? _) |]; congruence.
Qed.

(** The score of a type-matching vehicle whose capacity reads as the
    integer [c]. *)
Lemma calculate_match_score_seated
    (vehicle : Vehicle) (preferences : Preferences) (s : string) (c : Z) :
  type vehicle ∈ vehicleTypes preferences ->
  seatingCapacity vehicle = Some s ->
  truthy s = true ->
  int_of_str s = Ok c ->
  calculate_match_score vehicle preferences
  = Ok (clamp (unclamped_score vehicle preferences
               - (if c <? seatingMinimum preferences then 30 else 0))).
Proof.
  intros Hty Hs Ht Hc.
  unfold calculate_match_score, unclamped_score, clamp.
  rewrite bool_decide_eq_true_2 by assumption. cbn [negb].
  rewrite Hs, Ht. step Hc. rewrite bind_ret.
  destruct (c <? _); destruct (contains _ _); f_equal; lia.
Qed.

(** C7: every score the scorer returns lies in [0, 100]; it returns for
    every vehicle and preferences, except that a present seating capacity
    that is not a numeral makes [int] raise [ValueError]. *)
Theorem match_score_bounds (vehicle : Vehicle) (preferences : Preferences) :
  match calculate_match_score vehicle preferences with
  | Ok score => 0 <= score <= 100
  | Raise e =>
      e = ValueError
      /\ exists s, seatingCapacity vehicle = Some s
                   /\ truthy s = true
                   /\ int_of_str s = Raise ValueError
  end.
Proof.
  unfold calculate_match_score.
  destruct (negb _); [lia |].
  destruct (seatingCapacity vehicle) as [s |] eqn:Hs.
  - destruct (truthy s) eqn:Ht.
    + destruct (int_of_str s) as [c | e] eqn:Hc.
      * rewrite !bind_ret. apply clamp_bounds.
      * assert (e = ValueError) as -> by exact (int_of_str_raises s e Hc).
        cbn. split; [reflexivity |]. exists s. auto.
    + rewrite bind_ret. apply clamp_bounds.
  - rewrite bind_ret. apply clamp_bounds.
Qed.




End MatchScore.

(* ===================================================================== *)
(** * Further properties of the calculators                               *)
(* ===================================================================== *)

Section CalculatorErrors.

Import FinanceCalculator.

Context {A B : Type}.

(** A sequence raises when its first step raises, or when the first step
    returns and the rest raises. *)
Lemma bind_Raise_inv (c : result A) (k : A -> result B) (e : exn) :
  c ≫= k = Raise e -> c = Raise e \/ exists a, c = Ok a /\ k a = Raise e.
Proof. destruct c as [a | e']; intros H; [right; eauto | left; injection H as ->; reflexivity]. Qed.

Lemma bind_Raise_eq (c : result A) (k : A -> result B) (e : exn) :
  c = Raise e -> c ≫= k = Raise e.
Proof. intros ->. reflexivity. Qed.

End CalculatorErrors.

Section Calculators.

Import FinanceCalculator.

Lemma float_of_int_raises (n : Z) (e : exn) :
  float_of_int n = Raise e -> arithmetic_error e.
Proof.
  unfold float_of_int. destruct (is_infinity _); [| discriminate].
  intros [= <-]. right. reflexivity.
Qed.

Lemma truediv_raises (x y : float) (e : exn) :
  truediv x y = Raise e -> arithmetic_error e.
Proof.
  unfold truediv. destruct (is_zero y); [| discriminate].
  intros [= <-]. left. reflexivity.
Qed.

Lemma float_pow_raises {L : Libm} (x : float) (n : Z) (e : exn) :
  float_pow x n = Raise e -> arithmetic_error e.
Proof.
  unfold float_pow. intros H.
  apply bind_Raise_inv in H as [H | (iw & _ & H)];
    [exact (float_of_int_raises _ _ H) |].
  destruct (is_zero iw); [discriminate |].
  destruct (is_nan x); [discriminate |].
  destruct (is_infinity x); [destruct (0 <? _); discriminate |].
  destruct (is_zero x).
  { destruct (_ <? 0); [| discriminate]. injection H as <-. left. reflexivity. }
  destruct (abs x =? 1)%float; [discriminate |].
  destruct (is_infinity _); [| discriminate].
  injection H as <-. right. reflexivity.
Qed.

(** Peel one step off a raising sequence, closing the goal when that step
    is what raised. *)
Ltac peel H :=
  apply bind_Raise_inv in H as [H | (? & _ & H)];
  [ first [ exact (float_of_int_raises _ _ H)
          | exact (truediv_raises _ _ _ H)
          | exact (float_pow_raises _ _ _ H) ] | ].

Lemma calculate_loan_payment_raises {L : Libm}
    (vehicle_price down_payment interest_rate : float) (n : Z) (e : exn) :
  calculate_loan_payment vehicle_price down_payment interest_rate n = Raise e ->
  arithmetic_error e.
Proof.
  unfold calculate_loan_payment. intros H.
  apply bind_Raise_inv in H as [H | (mp & _ & H)].
  - destruct (_ =? 0)%float.
    + peel H. exact (truediv_raises _ _ _ H).
    + peel H. peel H. exact (truediv_raises _ _ _ H).
  - peel H. discriminate.
Qed.

Lemma calculate_lease_payment_raises
    (vehicle_price residual_value money_factor down_payment : float) (n : Z)
    (e : exn) :
  calculate_lease_payment vehicle_price residual_value money_factor
    down_payment n = Raise e ->
  arithmetic_error e.
Proof.
  unfold calculate_lease_payment. intros H.
  peel H. peel H. peel H. discriminate.
Qed.

Lemma calculate_affordability_raises {L : Libm}
    (income expenses down_payment interest_rate : float) (n : Z) (e : exn) :
  calculate_affordability income expenses down_payment interest_rate n
  = Raise e ->
  arithmetic_error e.
Proof.
  unfold calculate_affordability. intros H.
  apply bind_Raise_inv in H as [H | (mp & _ & H)]; [| discriminate].
  destruct (_ =? 0)%float.
  - peel H. discriminate.
  - peel H. peel H. discriminate.
Qed.

Lemma depreciation_loop_raises {L : Libm} (initial_value rate : float)
    (years : list Z) :
  forall (current : float) (vs ds cs : list float) (e : exn),
    depreciation_loop initial_value rate years current vs ds cs = Raise e ->
    arithmetic_error e.
Proof.
  induction years as [| year rest IH]; intros current vs ds cs e H;
    [discriminate |].
  cbn [depreciation_loop] in H. peel H. exact (IH _ _ _ _ _ H).
Qed.

Lemma calculate_depreciation_raises {L : Libm}
    (initial_value : float) (years : Z) (rate : float) (e : exn) :
  calculate_depreciation initial_value years rate = Raise e ->
  arithmetic_error e.
Proof.
  unfold calculate_depreciation. intros H.
  apply bind_Raise_inv in H as [H | ([[vs ds] cs] & _ & H)]; [| discriminate].
  exact (depreciation_loop_raises _ _ _ _ _ _ _ _ H).
Qed.

End Calculators.

Section CalculatorEdges.

Import FinanceCalculator.

(** X1: the lease calculator divides by the term alone.  At a term of zero
    months it raises ZeroDivisionError whatever the prices, and at every
    other term from -84 to 84 it returns. *)
Theorem lease_raises_at_zero_term_only
    (vehicle_price residual_value money_factor down_payment : float) :
  calculate_lease_payment vehicle_price residual_value money_factor
    down_payment 0 = Raise ZeroDivisionError
  /\ forall n, -84 <= n <= 84 -> n <> 0 ->
       returns (calculate_lease_payment vehicle_price residual_value
                  money_factor down_payment n) = true.
Proof.
  split; [reflexivity |]. intros n Hn Hn0.
  destruct (term_float n) as (Hf & Hz & _); [lia |].
  unfold calculate_lease_payment. step Hf.
  unfold truediv. rewrite Hz, bind_ret. step Hf. reflexivity.
Qed.

(** X2: at a term of zero months the affordability calculator returns for
    every rate, income, expenses and down payment: with a zero monthly rate
    the loan amount is the capacity times 0.0, otherwise the capacity times
    (1 - 1.0) / r, since (1 + r) ** -0 is 1.0. *)
Theorem affordability_zero_term_returns {L : Libm}
    (monthly_income monthly_expenses down_payment interest_rate : float) :
  let monthly_available := (monthly_income * 0.2 - monthly_expenses)%float in
  let monthly_rate := (interest_rate / 12 / 100)%float in
  calculate_affordability monthly_income monthly_expenses down_payment
    interest_rate 0
  = Ok (affordability_result monthly_available
          (monthly_available
           * (if (monthly_rate =? 0)%float then 0 else 0 / monthly_rate))
          down_payment).
Proof.
  intros monthly_available monthly_rate.
  unfold calculate_affordability. fold monthly_rate monthly_available.
  destruct (monthly_rate =? 0)%float eqn:Hr; [reflexivity |].
  change (- 0) with 0. rewrite float_pow_0, bind_ret.
  unfold truediv. change (is_zero monthly_rate) with (monthly_rate =? 0)%float.
  rewrite Hr. reflexivity.
Qed.

(** X3: the four calculators raise nothing but ZeroDivisionError and
    OverflowError, for any input whatever. *)
Theorem calculators_raise_arithmetic_errors_only {L : Libm} (e : exn) :
  (forall vehicle_price down_payment interest_rate n,
     calculate_loan_payment vehicle_price down_payment interest_rate n
     = Raise e -> arithmetic_error e)
  /\ (forall vehicle_price residual_value money_factor down_payment n,
        calculate_lease_payment vehicle_price residual_value money_factor
          down_payment n = Raise e -> arithmetic_error e)
  /\ (forall income expenses down_payment interest_rate n,
        calculate_affordability income expenses down_payment interest_rate n
        = Raise e -> arithmetic_error e)
  /\ (forall initial_value years rate,
        calculate_depreciation initial_value years rate = Raise e ->
        arithmetic_error e).
Proof.
  repeat split; intros.
  - eapply calculate_loan_payment_raises; eassumption.
  - eapply calculate_lease_payment_raises; eassumption.
  - eapply calculate_affordability_raises; eassumption.
  - eapply calculate_depreciation_raises; eassumption.
Qed.

(** The keys of a dictionary built from a literal are read off it. *)
Ltac absent Hk :=
  repeat (apply elem_of_cons in Hk as [-> | Hk]; [reflexivity |]);
  apply elem_of_nil in Hk; contradiction.

(** X4: whatever a calculator returns, no field of the response model its
    endpoint declares is a key of the dictionary: the calculators name their
    keys in snake_case, the models their fields in camelCase. *)
Theorem calculators_miss_response_fields {L : Libm} (k : string) (d : dict) :
  (forall vehicle_price down_payment interest_rate n,
     calculate_loan_payment vehicle_price down_payment interest_rate n = Ok d ->
     k ∈ Service.LoanCalculatorResponse -> d !! k = None)
  /\ (forall vehicle_price residual_value money_factor down_payment n,
        calculate_lease_payment vehicle_price residual_value money_factor
          down_payment n = Ok d ->
        k ∈ Service.LeaseCalculatorResponse -> d !! k = None)
  /\ (forall income expenses down_payment interest_rate n,
        calculate_affordability income expenses down_payment interest_rate n
        = Ok d ->
        k ∈ Service.AffordabilityResponse -> d !! k = None)
  /\ (forall initial_value years rate,
        calculate_depreciation initial_value years rate = Ok d ->
        k ∈ Service.DepreciationResponse -> d !! k = None).
Proof.
  repeat split.
  - intros vehicle_price down_payment interest_rate n H Hk.
    unfold calculate_loan_payment in H.
    apply bind_Ok in H as (mp & _ & H). apply bind_Ok in H as (f & _ & H).
    injection H as <-. absent Hk.
  - intros vehicle_price residual_value money_factor down_payment n H Hk.
    unfold calculate_lease_payment in H.
    apply bind_Ok in H as (f & _ & H). apply bind_Ok in H as (md & _ & H).
    apply bind_Ok in H as (f' & _ & H).
    injection H as <-. absent Hk.
  - intros income expenses down_payment interest_rate n H Hk.
    unfold calculate_affordability in H.
    apply bind_Ok in H as (ml & _ & H).
    injection H as <-. absent Hk.
  - intros initial_value years rate H Hk.
    unfold calculate_depreciation in H.
    apply bind_Ok in H as ([[vs ds] cs] & _ & H).
    injection H as <-. absent Hk.
Qed.

End CalculatorEdges.

Section CalculatorEndpoints.

Import Service.

(** With nothing but arithmetic errors to handle, the [except ValueError]
    clause is never entered. *)
Lemma except_ValueError_arithmetic {A} (c : result A) :
  (forall e, c = Raise e -> arithmetic_error e) ->
  except_ValueError c
  = match c with
    | Ok a => Returns a
    | Raise e => Propagates e
    end.
Proof.
  intros H. destruct c as [a | e]; [reflexivity |].
  destruct (H e eq_refl) as [-> | ->]; reflexivity.
Qed.

(** X5: the [except ValueError] clause of the loan, lease and depreciation
    endpoints never fires.  Whatever the request, each handler returns what
    its calculator returns, and when the calculator raises (which is
    ZeroDivisionError or OverflowError) the error propagates out of the
    handler; none of them answers with an HTTPException of its own. *)
Theorem calculator_endpoints_never_answer_400 {L : Libm} :
  (forall request,
     match FinanceCalculator.calculate_loan_payment
             (LoanCalculatorRequest.vehiclePrice request)
             (LoanCalculatorRequest.downPayment request)
             (LoanCalculatorRequest.interestRate request)
             (LoanCalculatorRequest.loanTermMonths request) with
     | Ok d => calculate_loan request = Returns d
     | Raise e => calculate_loan request = Propagates e /\ arithmetic_error e
     end)
  /\ (forall request,
        match FinanceCalculator.calculate_lease_payment
                (LeaseCalculatorRequest.vehiclePrice request)
                (LeaseCalculatorRequest.residualValue request)
                (LeaseCalculatorRequest.moneyFactor request)
                (LeaseCalculatorRequest.downPayment request)
                (LeaseCalculatorRequest.leaseTermMonths request) with
        | Ok d => calculate_lease request = Returns d
        | Raise e =>
            calculate_lease request = Propagates e /\ arithmetic_error e
        end)
  /\ (forall request,
        match FinanceCalculator.calculate_depreciation
                (DepreciationRequest.initialValue request)
                (DepreciationRequest.years request)
                (DepreciationRequest.annualDepreciationRate request) with
        | Ok d => calculate_depreciation request = Returns d
        | Raise e =>
            calculate_depreciation request = Propagates e
            /\ arithmetic_error e
        end).
Proof.
  repeat split; intros request.
  - unfold calculate_loan.
    rewrite except_ValueError_arithmetic
      by (intros e; apply calculate_loan_payment_raises).
    destruct (FinanceCalculator.calculate_loan_payment _ _ _ _) eqn:H;
      [reflexivity |].
    split; [reflexivity | exact (calculate_loan_payment_raises _ _ _ _ _ H)].
  - unfold calculate_lease.
    rewrite except_ValueError_arithmetic
      by (intros e; apply calculate_lease_payment_raises).
    destruct (FinanceCalculator.calculate_lease_payment _ _ _ _ _) eqn:H;
      [reflexivity |].
    split; [reflexivity | exact (calculate_lease_payment_raises _ _ _ _ _ _ H)].
  - unfold calculate_depreciation.
    rewrite except_ValueError_arithmetic
      by (intros e; apply calculate_depreciation_raises).
    destruct (FinanceCalculator.calculate_depreciation _ _ _) eqn:H;
      [reflexivity |].
    split; [reflexivity | exact (calculate_depreciation_raises _ _ _ _ H)].
Qed.

End CalculatorEndpoints.

Section DepreciationEdges.

Import FinanceCalculator.

Context {L : Libm}.
Variables (initial_value annual_depreciation_rate : float).

(** A loop that returns has computed the power of each of its years. *)
Lemma depreciation_loop_powers (years : list Z) :
  forall (current : float) (vs ds cs : list float) out,
    depreciation_loop initial_value annual_depreciation_rate years current
      vs ds cs = Ok out ->
    forall y, y ∈ years ->
      float_pow (1 - annual_depreciation_rate)%float y
      = Ok (powers_of annual_depreciation_rate y).
Proof.
  induction years as [| year rest IH]; intros current vs ds cs out H y Hy.
  - apply elem_of_nil in Hy. contradiction.
  - cbn [depreciation_loop] in H. apply bind_Ok in H as (p & Hp & H).
    apply elem_of_cons in Hy as [-> | Hy].
    + unfold powers_of. rewrite Hp. reflexivity.
    + exact (IH _ _ _ _ _ H y Hy).
Qed.

(** Whenever the calculator returns, for any number of years and any rate,
    it returns the three series over the years 1, ..., [years]. *)
Lemma calculate_depreciation_inv (years : Z) (d : dict) :
  calculate_depreciation initial_value years annual_depreciation_rate = Ok d ->
  d = depreciation_result initial_value (powers_of annual_depreciation_rate)
        years.
Proof.
  intros H.
  destruct (Z.le_gt_cases 0 years) as [Hy | Hy].
  - assert (Hs : calculate_depreciation initial_value years
                   annual_depreciation_rate
                 = Ok (depreciation_result initial_value
                         (powers_of annual_depreciation_rate) years)).
    { apply calculate_depreciation_series; [exact Hy |].
      intros y Hy'. unfold calculate_depreciation in H.
      apply bind_Ok in H as (out & H & _).
      apply (depreciation_loop_powers _ _ _ _ _ _ H).
      apply elem_of_seqZ. lia. }
    rewrite H in Hs. injection Hs as ->. reflexivity.
  - unfold calculate_depreciation, depreciation_result in *.
    rewrite seqZ_nil in * by lia. injection H as <-. reflexivity.
Qed.

End DepreciationEdges.

Section DepreciationProperties.

Import FinanceCalculator.

(** The library of the sample evaluations. *)
#[local] Existing Instance correctly_rounded.

Lemma sample_depreciation_returned :
  calculate_depreciation 20000 3 0.5 = Ok sample_depreciation.
Proof. vm_compute. reflexivity. Qed.

(** X6: whenever the depreciation calculator returns, for any number of
    years and any rate, also outside what the request schema allows, its
    result holds exactly the keys yearly_values, yearly_depreciation and
    cumulative_depreciation, each with a list of max(years, 0) entries. *)
Theorem depreciation_lists_have_equal_length {L : Libm}
    (initial_value : float) (years : Z) (annual_depreciation_rate : float)
    (d : dict) :
  calculate_depreciation initial_value years annual_depreciation_rate = Ok d ->
  exists values depreciation_amounts cumulative,
    d = depreciation_dict values depreciation_amounts cumulative
    /\ length values = Z.to_nat years
    /\ length depreciation_amounts = Z.to_nat years
    /\ length cumulative = Z.to_nat years.
Proof.
  intros H. apply calculate_depreciation_inv in H. subst d.
  eexists _, _, _. split; [reflexivity |].
  unfold series_values, series_depreciation, series_cumulative.
  rewrite !series_length. auto.
Qed.

Lemma depreciation_lists_have_equal_length_witness :
  calculate_depreciation 20000 3 0.5
  = Ok sample_depreciation
  /\ exists values depreciation_amounts cumulative,
       sample_depreciation
       = depreciation_dict values depreciation_amounts cumulative
       /\ length values = Z.to_nat 3
       /\ length depreciation_amounts = Z.to_nat 3
       /\ length cumulative = Z.to_nat 3.
Proof.
  split; [exact sample_depreciation_returned |].
  exact (depreciation_lists_have_equal_length 20000 3 0.5 _
           sample_depreciation_returned).
Defined.

(** X7: for a number of years of zero or below the loop body never runs:
    the calculator returns three empty lists, whatever the value and the
    rate, and raises nothing. *)
Theorem depreciation_no_years {L : Libm}
    (initial_value : float) (years : Z) (annual_depreciation_rate : float) :
  years <= 0 ->
  calculate_depreciation initial_value years annual_depreciation_rate
  = Ok (depreciation_dict [] [] []).
Proof.
  intros Hy. unfold calculate_depreciation. rewrite seqZ_nil by lia.
  reflexivity.
Qed.

Lemma depreciation_no_years_witness :
  calculate_depreciation 20000 (-3) 0.15 = Ok (depreciation_dict [] [] []).
Proof. apply depreciation_no_years. lia. Defined.

(** X8: the scratch helper [future_value] and the calculator agree: whenever
    the calculator returns for [years] years, [future_value] returns for
    each year y from 1 to [years], and its result is entry y - 1 of
    yearly_values. *)
Theorem future_value_is_yearly_value {L : Libm}
    (initial_value : float) (years : Z) (rate : float) (d : dict) (y : Z) :
  calculate_depreciation initial_value years rate = Ok d ->
  1 <= y <= years ->
  exists values v,
    d !! "yearly_values" = Some (PyList values)
    /\ values !! Z.to_nat (y - 1) = Some v
    /\ Scratch.future_value initial_value rate y = Ok v.
Proof.
  intros H Hy.
  assert (Hp : float_pow (1 - rate)%float y = Ok (powers_of rate y)).
  { unfold calculate_depreciation in H. apply bind_Ok in H as (out & H & _).
    eapply depreciation_loop_powers; [exact H |]. apply elem_of_seqZ. lia. }
  apply calculate_depreciation_inv in H. subst d.
  eexists _, _. split; [reflexivity |]. split.
  - unfold series_values. apply series_lookup. exact Hy.
  - unfold Scratch.future_value. step Hp. unfold year_value.
    destruct (Z.eqb_spec y 0); [lia | reflexivity].
Qed.

Lemma future_value_is_yearly_value_witness :
  calculate_depreciation 20000 3 0.5
  = Ok sample_depreciation
  /\ exists values v,
       sample_depreciation !! "yearly_values"
       = Some (PyList values)
       /\ values !! Z.to_nat (2 - 1) = Some v
       /\ Scratch.future_value 20000 0.5 2 = Ok v.
Proof.
  split; [exact sample_depreciation_returned |].
  exact (future_value_is_yearly_value 20000 3 0.5 _ 2
           sample_depreciation_returned ltac:(lia)).
Defined.

End DepreciationProperties.

Section Comparison.

Import FinanceCalculator.

(** X9: [compare_lease_vs_loan] runs the loan calculator at 60 months and
    the lease calculator at 36.  When the loan calculator raises, so does
    the comparison, with the same error; otherwise the lease calculator
    returns too and the comparison returns the two summaries: each monthly
    payment and total cost is the calculator's own field, and the
    term_months reported is the term the calculator was run with. *)
Theorem compare_lease_vs_loan_composes {L : Libm}
    (vehicle_price down_payment loan_interest_rate lease_money_factor
       residual_value : float) :
  match calculate_loan_payment vehicle_price down_payment
          loan_interest_rate 60 with
  | Raise e =>
      compare_lease_vs_loan vehicle_price down_payment loan_interest_rate
        lease_money_factor residual_value = Raise e
  | Ok loan_calc =>
      exists lease_calc comparison loan lease,
        calculate_lease_payment vehicle_price residual_value
          lease_money_factor down_payment 36 = Ok lease_calc
        /\ compare_lease_vs_loan vehicle_price down_payment
             loan_interest_rate lease_money_factor residual_value
           = Ok comparison
        /\ comparison !! "loan" = Some loan
        /\ comparison !! "lease" = Some lease
        /\ loan !! "monthly_payment" = loan_calc !! "monthly_payment"
        /\ loan !! "total_cost" = loan_calc !! "total_cost"
        /\ loan !! "term_months" = loan_calc !! "loan_term_months"
        /\ lease !! "monthly_payment" = lease_calc !! "monthly_payment"
        /\ lease !! "total_cost" = lease_calc !! "total_lease_cost"
        /\ lease !! "term_months" = lease_calc !! "lease_term_months"
  end.
Proof.
  destruct (calculate_loan_payment _ _ _ 60) as [loan_calc | e] eqn:Hl.
  - pose proof (calculate_lease_payment_returns vehicle_price residual_value
                  lease_money_factor down_payment 36 ltac:(lia)) as Hs.
    cbv zeta in Hs.
    pose proof Hl as Hd. unfold calculate_loan_payment in Hd.
    apply bind_Ok in Hd as (mp & _ & Hd). apply bind_Ok in Hd as (f & _ & Hd).
    injection Hd as Hd.
    eexists _, _, _, _. split; [exact Hs |].
    unfold compare_lease_vs_loan. step Hl. step Hs. subst loan_calc.
    split; [reflexivity |]. repeat split; reflexivity.
  - unfold compare_lease_vs_loan. rewrite Hl. reflexivity.
Qed.

End Comparison.

Section ScratchAffordability.

Import FinanceCalculator.

(** The library of the sample evaluations. *)
#[local] Existing Instance correctly_rounded.



Lemma sample_affordability_returned :
  Scratch.max_affordable_vehicle 5000 500 2000 1200 12 = Ok sample_max_affordable
  /\ calculate_affordability 5000 500 0 0 12
     = Ok (affordability_result 500 6000 0).
Proof. split; vm_compute; reflexivity. Qed.

(** X11: the scratch helper and the calculator agree on the payment
    capacity: whenever both return, for the same income and expenses (and any
    rates, terms and down payments), max_monthly_payment of the one is
    monthly_payment_capacity of the other, round(0.2 × income − expenses, 2). *)
Theorem max_monthly_payment_is_capacity {L : Libm}
    (monthly_income monthly_expenses down_payment down_payment' rate
       rate' : float) (n n' : Z) (d d' : dict) :
  Scratch.max_affordable_vehicle monthly_income monthly_expenses down_payment
    rate n = Ok d ->
  calculate_affordability monthly_income monthly_expenses down_payment'
    rate' n' = Ok d' ->
  d !! "max_monthly_payment"
  = Some (PyFloat (round2 (monthly_income * 0.2 - monthly_expenses)))
  /\ d' !! "monthly_payment_capacity" = d !! "max_monthly_payment".
Proof.
  intros H H'.
  unfold Scratch.max_affordable_vehicle in H.
  apply bind_Ok in H as (p & _ & H). apply bind_Ok in H as (q & _ & H).
  injection H as <-.
  unfold calculate_affordability in H'.
  apply bind_Ok in H' as (ml & _ & H'). injection H' as <-.
  split; reflexivity.
Qed.

Lemma max_monthly_payment_is_capacity_witness :
  Scratch.max_affordable_vehicle 5000 500 2000 1200 12 = Ok sample_max_affordable
  /\ calculate_affordability 5000 500 0 0 12
     = Ok (affordability_result 500 6000 0)
  /\ sample_max_affordable !! "max_monthly_payment"
     = Some (PyFloat (round2 (5000 * 0.2 - 500)))
  /\ affordability_result 500 6000 0 !! "monthly_payment_capacity"
     = sample_max_affordable !! "max_monthly_payment".
Proof.
  split; [exact (proj1 sample_affordability_returned) |].
  split; [exact (proj2 sample_affordability_returned) |].
  exact (max_monthly_payment_is_capacity 5000 500 2000 0 1200 0 12 12 _ _
           (proj1 sample_affordability_returned)
           (proj2 sample_affordability_returned)).
Defined.

End ScratchAffordability.

(* ===================================================================== *)
(** * Properties of the endpoints                                         *)
(* ===================================================================== *)

Section Queries.

Import Service.

Lemma count_char_app (c : ascii) (s t : string) :
  count_char c (s +:+ t) = (count_char c s + count_char c t)%nat.
Proof.
  induction s as [| c' s IH]; [reflexivity |].
  change (String c' s +:+ t) with (String c' (s +:+ t)).
  cbn [count_char]. rewrite IH. lia.
Qed.

(** A filter step keeps placeholders and parameters in step when its clause
    has one placeholder for the parameter it appends. *)
Lemma add_filter_placeholders (test : bool) (clause : string)
    (param : option value) (qp : string * list value) :
  (test = true -> count_char "?" clause = length (option_list param)) ->
  count_char "?" (fst qp) = length (snd qp) ->
  count_char "?" (fst (add_filter test clause param qp))
  = length (snd (add_filter test clause param qp)).
Proof.
  intros Hc Hqp. unfold add_filter. destruct test; [| exact Hqp].
  cbn [fst snd]. rewrite count_char_app, length_app, Hqp, Hc; reflexivity.
Qed.

(** X12: the query [list_vehicles] builds has one placeholder for each
    parameter it passes, whatever filters are given. *)
Theorem list_vehicles_placeholders
    (type : option string) (min_price max_price : option float)
    (year : option Z) :
  let qp := list_vehicles_query type min_price max_price year in
  count_char "?" (fst qp) = length (snd qp).
Proof.
  unfold list_vehicles_query.
  repeat apply add_filter_placeholders; try reflexivity.
  - destruct year; [reflexivity | discriminate].
  - destruct max_price; [reflexivity | discriminate].
  - destruct min_price; [reflexivity | discriminate].
  - destruct type; [reflexivity | discriminate].
Qed.

(** X13: a filter whose value is falsy is dropped like an absent one: an
    empty type, a maximum price of zero (of either sign) and a year of zero
    leave the query and the parameters as if they had not been given. *)
Theorem list_vehicles_falsy_filters
    (min_price : option float) (max_price : float) :
  is_zero max_price = true ->
  list_vehicles_query (Some EmptyString) min_price (Some max_price) (Some 0)
  = list_vehicles_query None min_price None None.
Proof.
  intros Hz. unfold list_vehicles_query, truthy_float. rewrite Hz. reflexivity.
Qed.

Lemma list_vehicles_falsy_filters_witness :
  list_vehicles_query (Some EmptyString) (Some 1000%float)
    (Some (-0)%float) (Some 0)
  = list_vehicles_query None (Some 1000%float) None None.
Proof.
  exact (list_vehicles_falsy_filters (Some 1000%float) (-0)%float eq_refl).
Defined.

(** The placeholders of [','.join('?' * n)]. *)
Lemma count_char_join (n : nat) :
  count_char "?" (join "," (str_repeat "?" n)) = n.
Proof.
  unfold join. induction n as [| n IH]; [reflexivity |].
  cbn [str_repeat list_ascii_of_string fmap list_fmap String.concat].
  cbn [str_repeat list_ascii_of_string fmap list_fmap String.concat] in IH.
  destruct n as [| n]; [reflexivity |].
  cbn [str_repeat list_ascii_of_string] in *. rewrite fmap_cons in *.
  cbv beta iota. rewrite !count_char_app, IH. reflexivity.
Qed.

(** X14: whenever [process_quiz] gets as far as the database, its query has
    one placeholder for each parameter: one per vehicle type, one for the
    seating minimum and, for a loan, one for the affordable price.  For a
    lease it always gets that far. *)
Theorem quiz_query_placeholders {L : Libm} (request : QuizRequest.t) :
  match quiz_query request with
  | Ok (query, params) =>
      count_char "?" query = length params
      /\ length params
         = (length (vehicleTypes (QuizRequest.preferences request)) + 1
            + match FinancingPreference.preferredType
                      (QuizRequest.financing request) with
              | FinancingPreference.loan => 1
              | FinancingPreference.lease => 0
              end)%nat
  | Raise e =>
      FinancingPreference.preferredType (QuizRequest.financing request)
      = FinancingPreference.loan
      /\ arithmetic_error e
  end.
Proof.
  unfold quiz_query.
  assert (Hq : forall n,
             count_char "?" (quiz_query_head +:+ join "," (str_repeat "?" n)
                             +:+ quiz_query_tail) = (n + 1)%nat).
  { intros n. rewrite !count_char_app, count_char_join. reflexivity. }
  destruct (FinancingPreference.preferredType _).
  - destruct (FinanceCalculator.calculate_affordability _ _ _ _ _)
      as [d | e] eqn:Hd.
    + rewrite bind_ret.
      unfold FinanceCalculator.calculate_affordability in Hd.
      apply bind_Ok in Hd as (ml & _ & Hd). injection Hd as <-.
      set (c := getitem _ "max_vehicle_price").
      assert (Hc : c = Ok (PyFloat (round2 (ml + Budget.downPayment
                                                   (QuizRequest.budget request)))))
        by reflexivity.
      rewrite (bind_Ok_eq c _ _ Hc).
      rewrite !count_char_app, count_char_join, !length_app, length_fmap.
      cbn [length]. split; [reflexivity | lia].
    + split; [reflexivity |].
      exact (calculate_affordability_raises _ _ _ _ _ _ Hd).
  - rewrite Hq, length_app, length_fmap. cbn [length]. split; lia.
Qed.

End Queries.

Section Ranking.

Import Service.

Lemma insert_by_score_Permutation (r : Recommendation.t)
    (l : list Recommendation.t) :
  insert_by_score r l ≡ₚ r :: l.
Proof.
  induction l as [| r' l IH]; [reflexivity |].
  cbn [insert_by_score]. destruct (_ <=? _); [reflexivity |].
  rewrite IH. apply Permutation_swap.
Qed.

Lemma sort_by_score_Permutation (l : list Recommendation.t) :
  sort_by_score l ≡ₚ l.
Proof.
  induction l as [| r l IH]; [reflexivity |].
  unfold sort_by_score in *. cbn [foldr].
  rewrite insert_by_score_Permutation, IH. reflexivity.
Qed.

Lemma insert_by_score_sorted (r : Recommendation.t)
    (l : list Recommendation.t) :
  StronglySorted by_score_descending l ->
  StronglySorted by_score_descending (insert_by_score r l).
Proof.
  induction 1 as [| r' l Hl IH Hr']; cbn [insert_by_score].
  - repeat constructor.
  - destruct (Z.leb_spec (Recommendation.matchScore r')
                (Recommendation.matchScore r)) as [Hle | Hlt].
    + constructor; [constructor; assumption |].
      constructor; [exact Hle |].
      eapply Forall_impl; [exact Hr' |].
      unfold by_score_descending. intros x Hx. lia.
    + constructor; [exact IH |].
      rewrite insert_by_score_Permutation. constructor; [| exact Hr'].
      unfold by_score_descending. lia.
Qed.

Lemma sort_by_score_sorted (l : list Recommendation.t) :
  StronglySorted by_score_descending (sort_by_score l).
Proof.
  induction l as [| r l IH]; [constructor |].
  apply insert_by_score_sorted. exact IH.
Qed.

Lemma insert_by_score_stable (s : Z) (r : Recommendation.t)
    (l : list Recommendation.t) :
  filter (fun x => Recommendation.matchScore x = s) (insert_by_score r l)
  = filter (fun x => Recommendation.matchScore x = s) (r :: l).
Proof.
  induction l as [| r' l IH]; [reflexivity |].
  cbn [insert_by_score].
  destruct (Z.leb_spec (Recommendation.matchScore r')
              (Recommendation.matchScore r)) as [Hle | Hlt]; [reflexivity |].
  rewrite (filter_cons _ r'), IH, !(filter_cons _ r), (filter_cons _ r').
  repeat case_decide; try reflexivity. lia.
Qed.

(** X15: the quiz's [sort(key=matchScore, reverse=True)] rearranges the
    recommendations, highest score first, and keeps those of equal score in
    the order they had. *)
Theorem sort_by_score_stable_descending (l : list Recommendation.t) :
  sort_by_score l ≡ₚ l
  /\ StronglySorted by_score_descending (sort_by_score l)
  /\ forall s,
       filter (fun x => Recommendation.matchScore x = s) (sort_by_score l)
       = filter (fun x => Recommendation.matchScore x = s) l.
Proof.
  split; [apply sort_by_score_Permutation |].
  split; [apply sort_by_score_sorted |].
  intros s. induction l as [| r l IH]; [reflexivity |].
  change (sort_by_score (r :: l)) with (insert_by_score r (sort_by_score l)).
  rewrite insert_by_score_stable, !(filter_cons _ r), IH. reflexivity.
Qed.

End Ranking.

Section Scorer.

(** The scorer raises nothing but the [ValueError] of [int]. *)
Lemma calculate_match_score_raises
    (vehicle : Vehicle) (preferences : Preferences) (e : exn) :
  calculate_match_score vehicle preferences = Raise e -> e = ValueError.
Proof.
  unfold calculate_match_score.
  destruct (negb _); [discriminate |].
  intros H. apply bind_Raise_inv in H as [H | (? & _ & H)]; [| discriminate].
  destruct (seatingCapacity vehicle) as [s |]; [| discriminate].
  destruct (truthy s); [| discriminate].
  apply bind_Raise_inv in H as [H | (? & _ & H)]; [| discriminate].
  exact (int_of_str_raises s e H).
Qed.

(** A returned score lies between 0 and 100. *)
Lemma calculate_match_score_range
    (vehicle : Vehicle) (preferences : Preferences) (score : Z) :
  calculate_match_score vehicle preferences = Ok score -> 0 <= score <= 100.
Proof.
  unfold calculate_match_score.
  destruct (negb _); [intros [= <-]; lia |].
  intros H. apply bind_Ok in H as (s & _ & H). injection H as <-.
  apply clamp_bounds.
Qed.

(** X16: every score the scorer returns is a multiple of ten between 0 and
    100, so a score that clears the quiz's threshold of 50 is one of 50, 60,
    ..., 100. *)
Theorem match_score_is_a_multiple_of_ten
    (vehicle : Vehicle) (preferences : Preferences) (score : Z) :
  calculate_match_score vehicle preferences = Ok score ->
  exists k, score = 10 * k /\ 0 <= k <= 10.
Proof.
  unfold calculate_match_score.
  destruct (negb _); [intros [= <-]; exists 0; lia |].
  set (n := Z.of_nat (size _)).
  intros H. apply bind_Ok in H as (s & Hs & H). injection H as <-.
  assert (Hten : exists m, s = 10 * m).
  { destruct (seatingCapacity vehicle) as [c |].
    - destruct (truthy c).
      + apply bind_Ok in Hs as (capacity & _ & Hs). injection Hs as <-.
        destruct (_ <? _); [exists (7 - n) | exists (10 - n)]; lia.
      + injection Hs as <-. exists (10 - n). lia.
    - injection Hs as <-. exists (10 - n). lia. }
  destruct Hten as [m ->].
  destruct (contains _ _).
  - exists (Z.max 0 (Z.min 10 (m + 1))). lia.
  - exists (Z.max 0 (Z.min 10 (m - 1))). lia.
Qed.

Lemma match_score_is_a_multiple_of_ten_witness :
  calculate_match_score truck picky_buyer = Ok 90
  /\ exists k, 90 = 10 * k /\ 0 <= k <= 10.
Proof.
  assert (H : calculate_match_score truck picky_buyer = Ok 90)
    by (vm_compute; reflexivity).
  split; [exact H |].
  exact (match_score_is_a_multiple_of_ten truck picky_buyer 90 H).
Defined.

(** A feature added to the must-have list adds at most itself to the
    missing ones, and nothing when the vehicle has it or it was listed. *)
Lemma missing_features_cons (f : string) (l : list string) (V : gset string) :
  let before := size (list_to_set l ∖ V : gset string) in
  let after := size (list_to_set (f :: l) ∖ V : gset string) in
  (before <= after <= before + 1)%nat
  /\ (f ∈ V \/ f ∈ l -> after = before).
Proof.
  cbv zeta. rewrite list_to_set_cons.
  destruct (decide (f ∈ V ∨ f ∈ l)) as [Hin | Hout].
  - assert (({[f]} ∪ list_to_set l) ∖ V = (list_to_set l ∖ V : gset string))
      as ->.
    { apply set_eq. intros x.
      rewrite !elem_of_difference, elem_of_union, elem_of_singleton,
        elem_of_list_to_set.
      split; [intros [[-> | Hx] Hn]; tauto | tauto]. }
    split; [lia | reflexivity].
  - assert (({[f]} ∪ list_to_set l) ∖ V
            = ({[f]} ∪ list_to_set l ∖ V : gset string))
      as ->.
    { apply set_eq. intros x.
      rewrite !elem_of_difference, !elem_of_union, elem_of_difference,
        elem_of_singleton, elem_of_list_to_set.
      split; [tauto | intros [-> | Hx]; tauto]. }
    assert (Hd : ({[f]} : gset string) ## list_to_set l ∖ V).
    { apply disjoint_singleton_l.
      rewrite elem_of_difference, elem_of_list_to_set. tauto. }
    rewrite (size_union _ _ Hd), size_singleton.
    split; [lia | tauto].
Qed.

(** X17: one more must-have feature never raises a vehicle's score and
    lowers it by ten at most; it leaves the score as it is when the vehicle
    has the feature or the feature was listed already.  Whether the scorer
    raises does not depend on the features. *)
Theorem must_have_feature_costs_at_most_ten
    (vehicle : Vehicle) (preferences : Preferences) (f : string) :
  let more :=
    with_mustHaveFeatures preferences (f :: mustHaveFeatures preferences) in
  match calculate_match_score vehicle preferences,
        calculate_match_score vehicle more with
  | Ok before, Ok after =>
      after <= before <= after + 10
      /\ (f ∈ features vehicle \/ f ∈ mustHaveFeatures preferences ->
          after = before)
  | Raise e, Raise e' => e = e'
  | _, _ => False
  end.
Proof.
  cbv zeta. unfold calculate_match_score.
  cbn [vehicleTypes mustHaveFeatures seatingMinimum fuelPreference
       with_mustHaveFeatures].
  destruct (negb _); [split; [lia | reflexivity] |].
  pose proof (missing_features_cons f (mustHaveFeatures preferences)
                (list_to_set (features vehicle))) as [Hsize Hsame].
  cbv zeta in Hsize, Hsame.
  assert (Hsame' : f ∈ features vehicle \/ f ∈ mustHaveFeatures preferences ->
                   size (list_to_set (f :: mustHaveFeatures preferences)
                         ∖ list_to_set (features vehicle) : gset string)
                   = size (list_to_set (mustHaveFeatures preferences)
                           ∖ list_to_set (features vehicle) : gset string)).
  { intros [H | H]; apply Hsame;
      [left; apply elem_of_list_to_set; exact H | right; exact H]. }
  clear Hsame.
  set (a := size (list_to_set (f :: _) ∖ _)) in *.
  set (b := size (list_to_set (mustHaveFeatures preferences) ∖ _)) in *.
  destruct (seatingCapacity vehicle) as [c |].
  - destruct (truthy c).
    + destruct (int_of_str c) as [capacity | e]; [| reflexivity].
      rewrite !bind_ret.
      destruct (_ <? _), (contains _ _);
        (split; [lia | intros H; apply Hsame' in H; lia]).
    + rewrite !bind_ret.
      destruct (contains _ _);
        (split; [lia | intros H; apply Hsame' in H; lia]).
  - rewrite !bind_ret.
    destruct (contains _ _); (split; [lia | intros H; apply Hsame' in H; lia]).
Qed.

End Scorer.

Section Handlers.

Import Service.

Context {L : Libm}.
Variable float_of_str : string -> result float.
Variable datetime : Type.
Variable add_days : datetime -> Z -> datetime.
Variable isoformat : datetime -> string.

#[local] Abbreviation availability :=
  (get_dealership_availability datetime add_days isoformat).
#[local] Abbreviation loop :=
  (quiz_loop float_of_str datetime add_days isoformat).
#[local] Abbreviation quiz :=
  (process_quiz float_of_str datetime add_days isoformat).
#[local] Abbreviation score_of preferences row :=
  (calculate_match_score (attributes row) preferences).

(** X18: [get_dealership_availability] gives every dealership the same ten
    slots, two for each of the five days after [now]: a test drive at 10:00
    and a consultation at 14:00.  It returns one dictionary per dealership,
    in order, which holds the slots under availableSlots (replacing what was
    there) and agrees with the dealership on every other key. *)
Theorem dealership_availability_slots
    (now : datetime) (dealerships : list (gmap string dvalue)) :
  exists slots : list (gmap string string),
    length slots = 10%nat
    /\ (forall i, 0 <= i < 5 ->
          let date := isoformat (add_days (add_days now 1) i) in
          slots !! Z.to_nat (2 * i)
          = Some (list_to_map [ ("date", date); ("time", "10:00");
                                ("type", "test-drive") ])
          /\ slots !! Z.to_nat (2 * i + 1)
             = Some (list_to_map [ ("date", date); ("time", "14:00");
                                   ("type", "consultation") ]))
    /\ length (availability now dealerships) = length dealerships
    /\ forall n dealership,
         dealerships !! n = Some dealership ->
         exists d,
           availability now dealerships !! n = Some d
           /\ d !! "availableSlots" = Some (DSlots slots)
           /\ forall k, k <> "availableSlots" -> d !! k = dealership !! k.
Proof.
  eexists. split; [| split; [| split]].
  3: { unfold get_dealership_availability. apply length_fmap. }
  3: { intros n dealership Hn. unfold get_dealership_availability.
       rewrite list_lookup_fmap, Hn. eexists. split; [reflexivity |].
       split; [apply lookup_insert_eq |].
       intros k Hk. apply lookup_insert_ne. congruence. }
  - reflexivity.
  - intros i Hi.
    assert (i = 0 \/ i = 1 \/ i = 2 \/ i = 3 \/ i = 4) as Hcase by lia.
    destruct Hcase as [-> | [-> | [-> | [-> | ->]]]]; split; reflexivity.
Qed.

(** The quiz loop for a lease: what it appends is one recommendation per
    qualifying row, in order. *)
Lemma quiz_loop_lease (request : QuizRequest.t) (clock : nat -> datetime)
    (rows : list Row) :
  FinancingPreference.preferredType (QuizRequest.financing request)
  = FinancingPreference.lease ->
  forall i recommendations out,
    loop request clock i rows recommendations = Ok out ->
    exists added,
      out = recommendations ++ added
      /\ Recommendation.vehicle <$> added
         = List.filter (qualifies (QuizRequest.preferences request)) rows
      /\ Forall (fun r =>
                   score_of (QuizRequest.preferences request)
                     (Recommendation.vehicle r)
                   = Ok (Recommendation.matchScore r)
                   /\ 50 <= Recommendation.matchScore r
                   /\ Recommendation.monthlyPayment r = None
                   /\ exists now,
                        Recommendation.availableDealerships r
                        = availability now
                            (dealerships (Recommendation.vehicle r)))
           added
      /\ Forall (fun row =>
                   exists s,
                     score_of (QuizRequest.preferences request) row = Ok s)
           rows.
Proof.
  intros Hlease.
  induction rows as [| row rest IH]; intros i recommendations out H.
  - injection H as <-. exists []. rewrite app_nil_r.
    split; [reflexivity |]. split; [reflexivity |]. split; constructor.
  - cbn [quiz_loop] in H. apply bind_Ok in H as (score & Hs & H).
    cbn [List.filter]. unfold qualifies at 1. rewrite Hs.
    destruct (50 <=? score) eqn:H50.
    + rewrite Hlease, bind_ret in H.
      apply IH in H as (added & -> & Hv & HF & Hall).
      eexists (_ :: added). split; [rewrite <- app_assoc; reflexivity |].
      split; [rewrite fmap_cons, Hv; reflexivity |].
      split; [| constructor; eauto].
      constructor; [| exact HF].
      cbn [Recommendation.vehicle Recommendation.matchScore
           Recommendation.monthlyPayment Recommendation.availableDealerships].
      repeat split; [exact Hs | apply Z.leb_le; exact H50 | eauto].
    + apply IH in H as (added & -> & Hv & HF & Hall). exists added.
      repeat split; [exact Hv | exact HF |]. constructor; eauto.
Qed.

(** The quiz loop for a lease raises when the scorer does. *)
Lemma quiz_loop_lease_raises (request : QuizRequest.t)
    (clock : nat -> datetime) (rows : list Row) :
  FinancingPreference.preferredType (QuizRequest.financing request)
  = FinancingPreference.lease ->
  forall i recommendations e,
    loop request clock i rows recommendations = Raise e ->
    e = ValueError
    /\ exists row, row ∈ rows
                   /\ score_of (QuizRequest.preferences request) row
                      = Raise ValueError.
Proof.
  intros Hlease.
  induction rows as [| row rest IH]; intros i recommendations e H;
    [discriminate |].
  cbn [quiz_loop] in H.
  apply bind_Raise_inv in H as [H | (score & _ & H)].
  - pose proof (calculate_match_score_raises _ _ _ H) as ->.
    split; [reflexivity |]. exists row. split; [left | exact H].
  - assert (Hrest : exists i' recs', loop request clock i' rest recs' = Raise e).
    { destruct (50 <=? score); [| eauto].
      rewrite Hlease, bind_ret in H. eauto. }
    destruct Hrest as (i' & recs' & Hrest).
    destruct (IH _ _ _ Hrest) as (-> & row' & Hin & Hrow).
    split; [reflexivity |]. exists row'. split; [right; exact Hin | exact Hrow].
Qed.


(** The subscript ["monthlyPayment"] on the loan calculator's result never
    yields a value, whatever the price is read as. *)
Lemma monthly_payment_subscript_raises
    (price : value) (down_payment interest_rate : float) (term : Z) :
  returns
    (price ← py_float float_of_str price;
     d ← FinanceCalculator.calculate_loan_payment price down_payment
            interest_rate term;
     getitem d "monthlyPayment") = false.
Proof.
  destruct (py_float float_of_str price) as [p | e]; [| reflexivity].
  rewrite bind_ret.
  exact (endpoint_monthly_payment_raises p down_payment interest_rate term).
Qed.

(** The quiz loop for a loan returns only if no row qualifies, and then
    appends nothing. *)
Lemma quiz_loop_loan (request : QuizRequest.t) (clock : nat -> datetime)
    (rows : list Row) :
  FinancingPreference.preferredType (QuizRequest.financing request)
  = FinancingPreference.loan ->
  forall i recommendations out,
    loop request clock i rows recommendations = Ok out ->
    out = recommendations
    /\ Forall (fun row =>
                 exists s, score_of (QuizRequest.preferences request) row = Ok s
                           /\ s < 50)
         rows.
Proof.
  intros Hloan.
  induction rows as [| row rest IH]; intros i recommendations out H.
  - injection H as <-. split; [reflexivity | constructor].
  - cbn [quiz_loop] in H. apply bind_Ok in H as (score & Hs & H).
    destruct (50 <=? score) eqn:H50.
    + rewrite Hloan in H. apply bind_Ok in H as (mp & Hmp & _).
      pose proof (monthly_payment_subscript_raises (price_baseMSRP row)
                    (Budget.downPayment (QuizRequest.budget request)) 5
                    (FinancingPreference.termLength
                       (QuizRequest.financing request))) as Hraise.
      destruct (py_float float_of_str (price_baseMSRP row)) as [p | e];
        [| discriminate].
      rewrite bind_ret in Hmp. rewrite bind_ret in Hraise.
      destruct (FinanceCalculator.calculate_loan_payment p _ _ _) as [d | e];
        [| discriminate].
      rewrite bind_ret in Hmp. rewrite bind_ret in Hraise.
      destruct (getitem d "monthlyPayment"); discriminate.
    + apply IH in H as [-> HF]. split; [reflexivity |].
      constructor; [| exact HF]. exists score. split; [exact Hs |].
      apply Z.leb_gt. exact H50.
Qed.

(** X20: the quiz for a loan returns only when every row of the database's
    answer scores below 50, and then with no recommendation at all: for a
    row that qualifies the handler subscripts the loan calculator's result
    with the key monthlyPayment, which is not there. *)
Theorem quiz_loan_recommends_nothing
    (request : QuizRequest.t) (clock : nat -> datetime) (rows : list Row)
    (recommendations : list Recommendation.t) :
  FinancingPreference.preferredType (QuizRequest.financing request)
  = FinancingPreference.loan ->
  quiz request clock rows = Returns recommendations ->
  recommendations = []
  /\ Forall (fun row =>
               exists s, score_of (QuizRequest.preferences request) row = Ok s
                         /\ s < 50)
       rows.
Proof.
  intros Hloan H. unfold process_quiz in H.
  destruct (quiz_query request) as [qp | e]; [| destruct e; discriminate].
  rewrite bind_ret in H.
  destruct (loop request clock 0 rows []) as [all | e] eqn:Hloop;
    [| destruct e; discriminate].
  rewrite bind_ret in H. injection H as <-.
  destruct (quiz_loop_loan request clock rows Hloan _ _ _ Hloop) as [-> HF].
  split; [reflexivity | exact HF].
Qed.

(** A suggestion is never built: reading the price raises, the loan
    calculator raises, or the key monthlyPayment is missing.  The error is a
    [ValueError] only when reading the price raised it. *)
Lemma suggest_raises (request : AffordabilityRequest.t) (max_price : float)
    (vehicle : Row) :
  exists e,
    suggest float_of_str request max_price vehicle = Raise e
    /\ (e = ValueError ->
        py_float float_of_str (price_baseMSRP vehicle) = Raise ValueError).
Proof.
  unfold suggest.
  destruct (py_float float_of_str (price_baseMSRP vehicle)) as [p | e].
  - rewrite bind_ret.
    destruct (FinanceCalculator.calculate_loan_payment p _ _ _) as [d | e]
      eqn:Hd.
    + rewrite bind_ret. unfold getitem.
      destruct (calculate_loan_payment_keys _ _ _ _ d Hd) as [_ ->].
      exists KeyError. split; [reflexivity | discriminate].
    + exists e. split; [reflexivity |]. intros ->.
      destruct (calculate_loan_payment_raises _ _ _ _ _ Hd); discriminate.
  - exists e. split; [reflexivity |]. intros ->. reflexivity.
Qed.

(** X21: the affordability endpoint returns only when the database finds no
    vehicle within the budget: for the first vehicle found it subscripts the
    loan calculator's result with the key monthlyPayment, which is not
    there.  With no vehicle found it returns what the calculator returns,
    with no suggestion, and lets the calculator's errors propagate. *)
Theorem affordability_endpoint_suggests_nothing
    (request : AffordabilityRequest.t) (suggested_vehicles : list Row) :
  let calculated :=
    FinanceCalculator.calculate_affordability
      (AffordabilityRequest.monthlyIncome request)
      (AffordabilityRequest.monthlyExpenses request)
      (AffordabilityRequest.downPayment request)
      (AffordabilityRequest.interestRate request)
      (AffordabilityRequest.loanTermMonths request) in
  match Service.calculate_affordability float_of_str request
          suggested_vehicles with
  | Returns (result, suggestions) =>
      suggested_vehicles = [] /\ suggestions = []
      /\ calculated = Ok result
  | HTTPException status_code =>
      status_code = 400
      /\ exists vehicle rest,
           suggested_vehicles = vehicle :: rest
           /\ py_float float_of_str (price_baseMSRP vehicle)
              = Raise ValueError
  | Propagates e => calculated = Raise e \/ suggested_vehicles <> []
  end.
Proof.
  cbv zeta. unfold Service.calculate_affordability.
  destruct (FinanceCalculator.calculate_affordability _ _ _ _ _)
    as [result | e] eqn:Hc.
  2: { pose proof (calculate_affordability_raises _ _ _ _ _ _ Hc) as [-> | ->];
       left; reflexivity. }
  rewrite bind_ret.
  unfold FinanceCalculator.calculate_affordability in Hc.
  apply bind_Ok in Hc as (ml & _ & Hc). injection Hc as <-.
  match goal with
  | |- context [getitem ?d "max_vehicle_price"] => set (result := d)
  end.
  set (c := getitem result "max_vehicle_price").
  assert (Hg : c = Ok (PyFloat (round2 (ml + AffordabilityRequest.downPayment
                                               request)))) by reflexivity.
  rewrite (bind_Ok_eq c _ _ Hg). cbn [py_float]. rewrite bind_ret.
  destruct suggested_vehicles as [| vehicle rest].
  - cbn [mapM]. rewrite !bind_ret. cbn [except_ValueError]. auto.
  - cbn [mapM].
    destruct (suggest_raises request
                (round2 (ml + AffordabilityRequest.downPayment request))
                vehicle) as (e & He & Hv).
    rewrite (bind_Raise_eq _ _ _ He).
    destruct e; cbn [except_ValueError]; try (right; discriminate).
    split; [reflexivity |]. exists vehicle, rest. auto.
Qed.

End Handlers.

Section HandlerSamples.

Import Service.

(** The library of the sample evaluations. *)
#[local] Existing Instance correctly_rounded.



Lemma loan_quiz_returns :
  process_quiz reject_str Z Z.add day_name loan_quiz (fun _ => 0) [truck_row]
  = Returns [].
Proof. vm_compute. reflexivity. Qed.

Lemma quiz_loan_recommends_nothing_witness :
  process_quiz reject_str Z Z.add day_name loan_quiz (fun _ => 0) [truck_row]
  = Returns []
  /\ ([] : list Recommendation.t) = []
  /\ Forall (fun row =>
               exists s,
                 calculate_match_score (attributes row)
                   (QuizRequest.preferences loan_quiz) = Ok s
                 /\ s < 50)
       [truck_row].
Proof.
  split; [exact loan_quiz_returns |].
  exact (quiz_loan_recommends_nothing reject_str Z Z.add day_name loan_quiz
           (fun _ => 0) [truck_row] [] eq_refl loan_quiz_returns).
Defined.

End HandlerSamples.

Section Validators.

Import Service.

(** A number that is not a nan is at least itself. *)
Lemma float_leb_refl (x : float) : is_nan x = false -> (x <=? x)%float = true.
Proof.
  unfold is_nan. rewrite FloatAxioms.eqb_spec, FloatAxioms.leb_spec.
  unfold SFeqb, SFleb.
  destruct (SFcompare (Prim2SF x) (Prim2SF x)) as [[] |]; try discriminate.
  reflexivity.
Qed.

(** X22: the validators of the request models compare with [>=]: a down
    payment or residual value equal to the vehicle price, and expenses equal
    to the income, are rejected with ValueError.  When the field compared
    with did not pass its own validation, and so is absent from [values],
    every value is let through unchanged. *)
Theorem validators_reject_equal_amounts
    (x : float) (values : gmap string float) :
  is_nan x = false ->
  (values !! "vehiclePrice" = Some x ->
   LoanCalculatorRequest.validate_down_payment x values = Raise ValueError
   /\ LeaseCalculatorRequest.validate_residual_value x values
      = Raise ValueError)
  /\ (values !! "monthlyIncome" = Some x ->
      AffordabilityRequest.validate_expenses x values = Raise ValueError)
  /\ (values !! "vehiclePrice" = None ->
      LoanCalculatorRequest.validate_down_payment x values = Ok x
      /\ LeaseCalculatorRequest.validate_residual_value x values = Ok x)
  /\ (values !! "monthlyIncome" = None ->
      AffordabilityRequest.validate_expenses x values = Ok x).
Proof.
  intros Hx. pose proof (float_leb_refl x Hx) as Hle.
  unfold LoanCalculatorRequest.validate_down_payment,
    LeaseCalculatorRequest.validate_residual_value,
    AffordabilityRequest.validate_expenses.
  split; [intros ->; rewrite Hle; split; reflexivity |].
  split; [intros ->; rewrite Hle; reflexivity |].
  split; [intros ->; split; reflexivity |].
  intros ->. reflexivity.
Qed.

Lemma validators_reject_equal_amounts_witness :
  LoanCalculatorRequest.validate_down_payment 1000
    {[ "vehiclePrice" := 1000%float ]} = Raise ValueError
  /\ LeaseCalculatorRequest.validate_residual_value 1000
       {[ "vehiclePrice" := 1000%float ]} = Raise ValueError
  /\ AffordabilityRequest.validate_expenses 1000
       {[ "vehiclePrice" := 1000%float ]} = Ok 1000%float.
Proof.
  destruct (validators_reject_equal_amounts 1000
              {[ "vehiclePrice" := 1000%float ]} eq_refl)
    as (Hprice & _ & _ & Hincome).
  destruct (Hprice eq_refl) as [Hdown Hresidual].
  exact (conj Hdown (conj Hresidual (Hincome eq_refl))).
Defined.

End Validators.
